(** * opera-scripts: a verification development

    The repository holds three straight-line Python scripts that drive a
    finite-element host through its scripting interface:

    - [generate_circular_conductor.py] (module [Conductor] below),
    - [example_buffer_calculate_graph_and_export.py] (module [Example]),
    - [halbach_2d_cylinders.py] (module [Halbach]).

    Each script is embedded as it is written: module-level names live in a
    finite map from names to values, statements are computations in a small
    state-and-exception monad, calls into the host and into the operating
    system (printing, clipboard, file export) are recorded as events of a
    trace, and the answers of the host are inputs of the model.

    Python [float] values are idealised as real numbers.  What depends on the
    binary representation of a float (its decimal rendering) is taken as a
    parameter, see [FloatFormat]. *)

From Stdlib Require Import Reals Lra ZArith Ascii String List.
From stdpp Require Import base gmap strings pretty list.

Open Scope string_scope.

(** ** A small model of the Python runtime *)

Module Py.

(** The exceptions the scripts can raise.  [NotFinite] is no exception of
    Python: it marks a NumPy division by zero, after which the run goes on
    with [inf] or [nan]; the real numbers have neither, and the model ends
    the run there. *)
Inductive exn : Type :=
  | NameError (name : string)
  | TypeError
  | ValueError
  | IndexError
  | ZeroDivisionError
  | NotFinite.

Inductive result (A : Type) : Type :=
  | Ok (a : A)
  | Raise (e : exn).
Arguments Ok {A} a.
Arguments Raise {A} e.

Definition rbind {A B} (r : result A) (k : A -> result B) : result B :=
  match r with Ok a => k a | Raise e => Raise e end.

(** The line feed, Python's ["\n"]. *)
Definition nl : string := String "010"%char "".

(** Numbers: Python [int] and Python [float]. *)
Inductive num : Type :=
  | Int (z : Z)
  | Float (r : R).

Definition to_R (n : num) : R :=
  match n with Int z => IZR z | Float r => r end.

(** A point of space, one row of a [(n,3)] array. *)
Definition vec3 : Type := R * R * R.

(** The values module-level names are bound to. *)
Inductive value : Type :=
  | VNone
  | VBool (b : bool)
  | VNum (n : num)
  | VStr (s : string)
  | VPoint (p : vec3)
  | VPoints (ps : list vec3)
  | VStrs (ss : list string)
  | VTable (rows : list (list R))
  | VHandle (name : string)
  | VModule (name : string).

(** Rendering of floats: [fixed d x] is [f"{x:.df}"], [repr_float x] is
    [str(x)], and [sci18 x] is ["%.18e" % x], the default format of
    [numpy.savetxt]. *)
Class FloatFormat : Type := {
  fixed : nat -> R -> string;
  repr_float : R -> string;
  sci18 : R -> string
}.

(** [str(n)] for a number, which is also what [f"{n}"] inserts. *)
Definition str `{FloatFormat} (n : num) : string :=
  match n with
  | Int z => pretty z
  | Float r => repr_float r
  end.

(** [sep.join(parts)]. *)
Fixpoint join (sep : string) (parts : list string) : string :=
  match parts with
  | [] => ""
  | [p] => p
  | p :: rest => p +:+ sep +:+ join sep rest
  end.

(** [f"{s:<w}"]: left-justify [s] in a field of width [w]. *)
Fixpoint spaces (n : nat) : string :=
  match n with
  | O => ""
  | S k => String " "%char (spaces k)
  end.

Definition ljust (w : nat) (s : string) : string :=
  s +:+ spaces (w - String.length s).


(** *** Module state and the statement monad *)

Section Monad.
Context {E : Type}.

(** Global names and the events emitted so far, oldest first. *)
Record state : Type := State {
  globals : gmap string value;
  trace : list E
}.

Definition M (A : Type) : Type := state -> result A * state.

Definition ret {A} (a : A) : M A := fun s => (Ok a, s).

Definition bind {A B} (m : M A) (k : A -> M B) : M B :=
  fun s =>
    match m s with
    | (Ok a, s') => k a s'
    | (Raise e, s') => (Raise e, s')
    end.

Definition raise {A} (e : exn) : M A := fun s => (Raise e, s).

Definition lift {A} (r : result A) : M A := fun s => (r, s).

(** [name = v]. *)
Definition assign (name : string) (v : value) : M unit :=
  fun s => (Ok tt, State (<[name := v]> (globals s)) (trace s)).

(** Evaluation of the name [name].  A name the module has not bound is
    looked up among the builtins next; the names the scripts read this way
    are no builtins, so the lookup ends in [NameError]. *)
Definition load (name : string) : M value :=
  fun s =>
    match globals s !! name with
    | Some v => (Ok v, s)
    | None => (Raise (NameError name), s)
    end.

Definition emit (e : E) : M unit :=
  fun s => (Ok tt, State (globals s) (trace s ++ [e])).

(** [for x in xs: body x]. *)
Fixpoint for_each {A} (xs : list A) (body : A -> M unit) : M unit :=
  match xs with
  | [] => ret tt
  | x :: rest => bind (body x) (fun _ => for_each rest body)
  end.

Definition as_num (v : value) : M num :=
  match v with VNum n => ret n | _ => raise TypeError end.
Definition as_str (v : value) : M string :=
  match v with VStr s => ret s | _ => raise TypeError end.
Definition as_bool (v : value) : M bool :=
  match v with VBool b => ret b | _ => raise TypeError end.
Definition as_points (v : value) : M (list vec3) :=
  match v with VPoints ps => ret ps | _ => raise TypeError end.

Definition as_strs (v : value) : M (list string) :=
  match v with VStrs ss => ret ss | _ => raise TypeError end.
Definition as_table (v : value) : M (list (list R)) :=
  match v with VTable rows => ret rows | _ => raise TypeError end.
Definition as_handle (v : value) : M string :=
  match v with VHandle h => ret h | _ => raise TypeError end.

Definition init : state := State ∅ [].
End Monad.
Arguments state : clear implicits.
Arguments M : clear implicits.

Global Instance M_ret {E} : MRet (M E) := fun A => @ret E A.
Global Instance M_bind {E} : MBind (M E) := fun A B k m => @bind E A B m k.

(** A name read where a value of one kind is needed. *)
Definition load_num {E} (name : string) : M E num :=
  v ← load name; as_num v.
Definition load_R {E} (name : string) : M E R :=
  v ← load name; n ← as_num v; mret (to_R n).
Definition load_str {E} (name : string) : M E string :=
  v ← load name; as_str v.
Definition load_points {E} (name : string) : M E (list vec3) :=
  v ← load name; as_points v.
Definition load_strs {E} (name : string) : M E (list string) :=
  v ← load name; as_strs v.
Definition load_table {E} (name : string) : M E (list (list R)) :=
  v ← load name; as_table v.
Definition load_handle {E} (name : string) : M E string :=
  v ← load name; as_handle v.

End Py.

(** ** generate_circular_conductor.py *)

Module Conductor.
Import Py.

(** What the script does to the outside: [print(...)] with its arguments,
    and [pyperclip.copy(text)]. *)
Inductive event : Type :=
  | Print (args : list value)
  | ClipboardCopy (text : string).

(** The INPUTS section (lines 19-32); the values are the user's to edit. *)
Record inputs : Type := Inputs {
  length : num;
  rotation_center_y : option num;
  angle : option num;
  radius : num;
  current_dens : num;
  tolerance : num;
  drive_label : string;
  coordinate_system : string
}.

(** The values as they stand in the repository. *)
Definition default_inputs : inputs := {|
  length := Int 450;
  rotation_center_y := None;
  angle := None;
  radius := Float (64 / 100);
  current_dens := Int 1;
  tolerance := Float (1 / 1000);
  drive_label := "Default_Drive";
  coordinate_system := "coil1_p8"
|}.

Definition opt_value (o : option num) : value :=
  match o with None => VNone | Some n => VNum n end.

(** *** Array operations used by the script *)

Open Scope R_scope.

(** [ps + v] and [ps - v] with [v] broadcast over the rows of [ps]. *)
Definition vadd (p v : vec3) : vec3 :=
  let '(x, y, z) := p in let '(a, b, c) := v in (x + a, y + b, z + c).
Definition vsub (p v : vec3) : vec3 :=
  let '(x, y, z) := p in let '(a, b, c) := v in (x - a, y - b, z - c).
Definition add_rows (ps : list vec3) (v : vec3) : list vec3 := map (fun p => vadd p v) ps.
Definition sub_rows (ps : list vec3) (v : vec3) : list vec3 := map (fun p => vsub p v) ps.

(** A [(3,3)] array and [m @ v]. *)
Definition mat3 : Type := vec3 * vec3 * vec3.
Definition dot (u v : vec3) : R :=
  let '(a, b, c) := u in let '(x, y, z) := v in a * x + b * y + c * z.
Definition matvec (m : mat3) (v : vec3) : vec3 :=
  let '(r1, r2, r3) := m in (dot r1 v, dot r2 v, dot r3 v).

(** [np.radians], and the script's [cosd] and [sind]. *)
Definition radians (x : R) : R := x * (PI / 180).
Definition cosd (x : R) : R := cos (radians x).
Definition sind (x : R) : R := sin (radians x).

(** [rotx] (lines 55-57). *)
Definition rotx (angle : R) : mat3 :=
  ((1, 0, 0),
   (0, cosd (- angle / 2), - sind (- angle / 2)),
   (0, sind (- angle / 2), cosd (- angle / 2))).

(** The cross-section on the first face (lines 38-45 and 59-66). *)
Definition corners (sqr radius : R) : list vec3 :=
  [ (sqr * radius, sqr * radius, 0);
    (sqr * radius, - sqr * radius, 0);
    (- sqr * radius, - sqr * radius, 0);
    (- sqr * radius, sqr * radius, 0) ].
Definition extremes (radius : R) : list vec3 :=
  [ (radius, 0, 0); (0, - radius, 0); (- radius, 0, 0); (0, radius, 0) ].

(** [np.zeros((n,3))]. *)
Definition zeros (n : nat) : list vec3 := replicate n (0, 0, 0).

Close Scope R_scope.

(** [a[i]] and [a[i] = v] on the rows of an array; out of range raises. *)
Definition getitem (a : list vec3) (i : nat) : M event vec3 :=
  match a !! i with
  | Some p => mret p
  | None => raise IndexError
  end.
Definition setitem (a : list vec3) (i : nat) (v : vec3) : M event (list vec3) :=
  if decide (i < List.length a)%nat then mret (<[i := v]> a) else raise IndexError.


(** *** The script, section by section *)

(** Lines 6-15: imports, the clipboard switch and [sqr]. *)
Definition header (pyperclip_found : bool) : M event unit :=
  assign "np" (VModule "numpy");;
  assign "importlib" (VModule "importlib");;
  (if pyperclip_found
   then assign "pyperclip" (VModule "pyperclip");;
        assign "to_clipboard" (VBool true)
   else assign "to_clipboard" (VBool false));;
  _ ← load "np";
  assign "sqr" (VNum (Float (sqrt 2 / 2))).

(** Lines 19-32: the assignments of the INPUTS section. *)
Definition assign_inputs (i : inputs) : M event unit :=
  assign "length" (VNum (length i));;
  assign "rotation_center_y" (opt_value (rotation_center_y i));;
  assign "angle" (opt_value (angle i));;
  assign "radius" (VNum (radius i));;
  assign "current_dens" (VNum (current_dens i));;
  assign "tolerance" (VNum (tolerance i));;
  assign "drive_label" (VStr (drive_label i));;
  assign "coordinate_system" (VStr (coordinate_system i)).

(** Lines 17-32: line 18 is the expression statement [a]. *)
Definition inputs_section (i : inputs) : M event unit :=
  _ ← load "a";
  assign_inputs i.

(** Lines 36-84: GENERATE POINTS.  The helper names [cosd], [sind], [rotx]
    and the loop index are Rocq binders; the five arrays are module names. *)
Definition straight_branch : M event unit :=
  sqr ← load_R "sqr"; radius ← load_R "radius";
  assign "face1_corners" (VPoints (corners sqr radius));;
  radius ← load_R "radius";
  assign "face1_extremes" (VPoints (extremes radius));;
  f1c ← load_points "face1_corners"; len ← load_R "length";
  assign "face2_corners" (VPoints (add_rows f1c (0, 0, len / 2)%R));;
  f1c ← load_points "face1_corners"; len ← load_R "length";
  assign "face3_corners" (VPoints (add_rows f1c (0, 0, len)%R));;
  f1e ← load_points "face1_extremes"; len ← load_R "length";
  assign "face3_extremes" (VPoints (add_rows f1e (0, 0, len)%R)).

Definition rotate_rows (m : mat3) (i : nat) : M event unit :=
  f1c ← load_points "face1_corners"; p ← getitem f1c i;
  f2c ← load_points "face2_corners"; f2c' ← setitem f2c i (matvec m p);
  assign "face2_corners" (VPoints f2c');;
  f2c ← load_points "face2_corners"; q ← getitem f2c i;
  f3c ← load_points "face3_corners"; f3c' ← setitem f3c i (matvec m q);
  assign "face3_corners" (VPoints f3c');;
  f1e ← load_points "face1_extremes"; e ← getitem f1e i;
  f3e ← load_points "face3_extremes";
  f3e' ← setitem f3e i (matvec m (matvec m e));
  assign "face3_extremes" (VPoints f3e').

(** [name = name + np.array([0,rotation_center_y,0])], and with [-], in the
    real numbers.  That is the arithmetic of the source on float64 arrays,
    rounding apart.  [face1_corners] is one for every input, for [sqr] is a
    float; [face1_extremes] is an int64 array when [radius] is an int, and
    line 69 then subtracts an int [rotation_center_y] modulo [2^64].  The
    difference in the real numbers is the entry of the source as long as it
    lies in the range of int64: see [Int64.no_int64_wrap] and
    [Int64Facts.shift_to_center_is_exact]. *)
Definition shift_back (name : string) : M event unit :=
  ps ← load_points name; c ← load_R "rotation_center_y";
  assign name (VPoints (add_rows ps (0, c, 0)%R)).
Definition shift_to_center (name : string) : M event unit :=
  ps ← load_points name; c ← load_R "rotation_center_y";
  assign name (VPoints (sub_rows ps (0, c, 0)%R)).

Definition curved_branch (angle : num) : M event unit :=
  let m := rotx (to_R angle) in
  sqr ← load_R "sqr"; radius ← load_R "radius";
  assign "face1_corners" (VPoints (corners sqr radius));;
  radius ← load_R "radius";
  assign "face1_extremes" (VPoints (extremes radius));;
  shift_to_center "face1_corners";;
  shift_to_center "face1_extremes";;
  assign "face2_corners" (VPoints (zeros 4));;
  assign "face3_corners" (VPoints (zeros 4));;
  assign "face3_extremes" (VPoints (zeros 4));;
  for_each (seq 0 4) (rotate_rows m);;
  shift_back "face1_corners";;
  shift_back "face1_extremes";;
  shift_back "face2_corners";;
  shift_back "face3_corners";;
  shift_back "face3_extremes".

Definition generate_points : M event unit :=
  angle ← load "angle";
  match angle with
  | VNone => straight_branch
  | VNum a => curved_branch a
  | _ => raise TypeError
  end.

(** Lines 88-107: CREATE COMMAND. *)
Section Command.
Context `{FloatFormat}.

(** [comi += text]. *)
Definition append_comi (text : string) : M event unit :=
  c ← load_str "comi";
  assign "comi" (VStr (c +:+ text)).

Definition print_point (point_number : nat) (p : vec3) : M event unit :=
  emit (Print [VStr "Point"; VNum (Int (Z.of_nat point_number)); VStr ":";
               VPoint p]).

(** The three f-strings of lines 99-101. *)
Definition xp (point_number : nat) (x : R) : string :=
  "XP" +:+ pretty point_number +:+ "=" +:+ fixed 8 x +:+ " ".
Definition yp (point_number : nat) (y : R) : string :=
  "YP" +:+ pretty point_number +:+ "=" +:+ fixed 8 y +:+ " ".
Definition zp (point_number : nat) (z : R) : string :=
  "ZP" +:+ pretty point_number +:+ "=" +:+ fixed 8 z +:+ " ".

(** The body of the loop of lines 96-101. *)
Definition command_body (np : nat * vec3) : M event unit :=
  let '(point_number, point_coordinates) := np in
  print_point point_number point_coordinates;;
  let '(x, y, z) := point_coordinates in
  append_comi (xp point_number x);;
  append_comi (yp point_number y);;
  append_comi (zp point_number z).

(** [zip(range(1,21), all_points)]. *)
Definition numbered (all_points : list vec3) : list (nat * vec3) :=
  zip (seq 1 20) all_points.

Definition create_command : M event unit :=
  f1c ← load_points "face1_corners";
  f3c ← load_points "face3_corners";
  f1e ← load_points "face1_extremes";
  f2c ← load_points "face2_corners";
  f3e ← load_points "face3_extremes";
  assign "all_points" (VPoints (f1c ++ f3c ++ f1e ++ f2c ++ f3e));;
  assign "comi" (VStr "BRICK20 OPTION=NEW -KEEP ");;
  all_points ← load_points "all_points";
  for_each (numbered all_points) command_body;;
  append_comi "INCIRCUIT=NO CIRCUITELEMENT= ";;
  current_dens ← load_num "current_dens";
  tolerance ← load_num "tolerance";
  drive_label ← load_str "drive_label";
  append_comi ("CURD=" +:+ str current_dens +:+ " TOLERANCE=" +:+ str tolerance
               +:+ " DRIVELABEL='" +:+ drive_label +:+ "' ");;
  append_comi "THETA2=0 PHI2=0 PSI2=0 XCEN2=0 YCEN2=0 ZCEN2=0 ";;
  coordinate_system ← load_str "coordinate_system";
  append_comi ("LCNAME='" +:+ coordinate_system
               +:+ "' RXY=0 RYZ=0 RZX=0 SYMMETRY=1 MODELCOMPONENT=NO");;
  append_comi "RXY=0 RYZ=0 RZX=0 SYMMETRY=1 MODELCOMPONENT=NO".

(** Lines 111-118: OUTPUT. *)
Definition output : M event unit :=
  all_points ← load_points "all_points";
  for_each (numbered all_points) (fun np : nat * vec3 => print_point np.1 np.2);;
  to_clipboard ← load "to_clipboard";
  b ← as_bool to_clipboard;
  if (b : bool) then
    pyperclip ← load "pyperclip";
    comi ← load_str "comi";
    emit (ClipboardCopy comi);;
    emit (Print [VStr "comi code exported to clipboard"])
  else
    emit (Print [VStr "comi code not exported to clipboard, pyperclip library not found"]).

(** The whole script. *)
Definition script (pyperclip_found : bool) (i : inputs) : M event unit :=
  header pyperclip_found;;
  inputs_section i;;
  generate_points;;
  create_command;;
  output.

(** The statements of the script other than line 18, up to the end of
    GENERATE POINTS, of CREATE COMMAND, and of the script. *)
Definition up_to_points (pyperclip_found : bool) (i : inputs) : M event unit :=
  header pyperclip_found;;
  assign_inputs i;;
  generate_points.


(** The script with the statement of line 18 taken out. *)
Definition script_without_line_18 (pyperclip_found : bool) (i : inputs)
  : M event unit :=
  header pyperclip_found;;
  assign_inputs i;;
  generate_points;;
  create_command;;
  output.
End Command.

(** *** The command string in closed form *)

Section CommandText.
Context `{FloatFormat}.

(** What one round of the loop of lines 96-101 prints and appends. *)
Definition point_event (np : nat * vec3) : event :=
  Print [VStr "Point"; VNum (Int (Z.of_nat np.1)); VStr ":"; VPoint np.2].

Definition point_fragment (np : nat * vec3) : string :=
  xp np.1 np.2.1.1 +:+ yp np.1 np.2.1.2 +:+ zp np.1 np.2.2.

Fixpoint fragments (nps : list (nat * vec3)) : string :=
  match nps with
  | [] => ""
  | np :: rest => point_fragment np +:+ fragments rest
  end.


Definition command_tail (i : inputs) : string :=
  "INCIRCUIT=NO CIRCUITELEMENT= "
  +:+ "CURD=" +:+ str (current_dens i)
  +:+ " TOLERANCE=" +:+ str (tolerance i)
  +:+ " DRIVELABEL='" +:+ drive_label i +:+ "' "
  +:+ "THETA2=0 PHI2=0 PSI2=0 XCEN2=0 YCEN2=0 ZCEN2=0 "
  +:+ "LCNAME='" +:+ coordinate_system i
  +:+ "' RXY=0 RYZ=0 RZX=0 SYMMETRY=1 MODELCOMPONENT=NO"
  +:+ "RXY=0 RYZ=0 RZX=0 SYMMETRY=1 MODELCOMPONENT=NO".

Definition command_text (i : inputs) (all_points : list vec3) : string :=
  "BRICK20 OPTION=NEW -KEEP "
  +:+ fragments (zip (seq 1 20) all_points)
  +:+ command_tail i.
End CommandText.

(** *** Geometry, as the description of the script words it *)

(** [p] translated by [v]. *)
Definition translate (v p : vec3) : vec3 :=
  ((p.1.1 + v.1.1)%R, (p.1.2 + v.1.2)%R, (p.2 + v.2)%R).

(** [p] rotated by [theta] degrees about the axis parallel to x through
    [(0, c, 0)]: the offset from the axis turns in the y-z plane. *)
Definition rotate_about_x_axis (c theta : R) (p : vec3) : vec3 :=
  let t := (theta * (PI / 180))%R in
  let dy := (p.1.2 - c)%R in
  let dz := p.2 in
  (p.1.1, (c + (dy * cos t - dz * sin t))%R, (dy * sin t + dz * cos t)%R).

(** The names the INPUTS section and the header leave for the rest. *)
Definition inputs_bound (g : gmap string value) (i : inputs) : Prop :=
  g !! "sqr" = Some (VNum (Float (sqrt 2 / 2))) /\
  g !! "length" = Some (VNum (length i)) /\
  g !! "rotation_center_y" = Some (opt_value (rotation_center_y i)) /\
  g !! "angle" = Some (opt_value (angle i)) /\
  g !! "radius" = Some (VNum (radius i)) /\
  g !! "current_dens" = Some (VNum (current_dens i)) /\
  g !! "tolerance" = Some (VNum (tolerance i)) /\
  g !! "drive_label" = Some (VStr (drive_label i)) /\
  g !! "coordinate_system" = Some (VStr (coordinate_system i)).

(** The five arrays of points. *)
Record faces : Type := Faces {
  face1_corners : list vec3;
  face1_extremes : list vec3;
  face2_corners : list vec3;
  face3_corners : list vec3;
  face3_extremes : list vec3
}.

Definition faces_bound (g : gmap string value) (f : faces) : Prop :=
  g !! "face1_corners" = Some (VPoints (face1_corners f)) /\
  g !! "face1_extremes" = Some (VPoints (face1_extremes f)) /\
  g !! "face2_corners" = Some (VPoints (face2_corners f)) /\
  g !! "face3_corners" = Some (VPoints (face3_corners f)) /\
  g !! "face3_extremes" = Some (VPoints (face3_extremes f)).

(** A run that rebinds no other name than [comi]. *)
Definition only_comi_changes (g g' : gmap string value) : Prop :=
  forall n : string, n <> "comi" -> g' !! n = g !! n.

(** A run that rebinds no other name than the five arrays. *)
Definition only_faces_change (g g' : gmap string value) : Prop :=
  forall n : string,
    n <> "face1_corners" -> n <> "face1_extremes" -> n <> "face2_corners" ->
    n <> "face3_corners" -> n <> "face3_extremes" ->
    g' !! n = g !! n.

(** Straight conductor: the second face half way, the third at [len]. *)
Definition straight_faces (r len : R) : faces := {|
  face1_corners := corners (sqrt 2 / 2) r;
  face1_extremes := extremes r;
  face2_corners := map (translate (0, 0, len / 2)%R) (corners (sqrt 2 / 2) r);
  face3_corners := map (translate (0, 0, len)%R) (corners (sqrt 2 / 2) r);
  face3_extremes := map (translate (0, 0, len)%R) (extremes r)
|}.

(** Curved conductor: the second face turned by [- a / 2], the third by
    [- a], about the axis through [(0, c, 0)]. *)
Definition curved_faces (r a c : R) : faces := {|
  face1_corners := corners (sqrt 2 / 2) r;
  face1_extremes := extremes r;
  face2_corners :=
    map (rotate_about_x_axis c (- a / 2)%R) (corners (sqrt 2 / 2) r);
  face3_corners := map (rotate_about_x_axis c (- a)%R) (corners (sqrt 2 / 2) r);
  face3_extremes := map (rotate_about_x_axis c (- a)%R) (extremes r)
|}.

(** The arrays a configuration leads to; a curved conductor needs its
    rotation centre. *)
Definition faces_of (i : inputs) : option faces :=
  match angle i with
  | None => Some (straight_faces (to_R (radius i)) (to_R (length i)))
  | Some a =>
      match rotation_center_y i with
      | Some c => Some (curved_faces (to_R (radius i)) (to_R a) (to_R c))
      | None => None
      end
  end.

(** [np.concatenate] of line 88. *)
Definition all_points_of (f : faces) : list vec3 :=
  face1_corners f ++ face3_corners f ++ face1_extremes f
  ++ face2_corners f ++ face3_extremes f.

End Conductor.

(** ** The array library, as far as the exports use it *)

Module Numpy.
Import Py.

(** [np.array(rows)] for a list of lists of floats: a list of rows of one
    length becomes a two-dimensional array, anything else is refused. *)
Definition np_array (rows : list (list R)) : result (list (list R)) :=
  match rows with
  | [] => Ok []
  | r :: rest =>
      if forallb (fun r' => Nat.eqb (List.length r') (List.length r)) rest
      then Ok rows
      else Raise ValueError
  end.

(** [a.T]: entry [i][j] of the result is entry [j][i] of [a]. *)
Definition column (j : nat) (a : list (list R)) : list R :=
  map (fun row => nth j row 0%R) a.

Definition T (a : list (list R)) : list (list R) :=
  match a with
  | [] => []
  | r :: _ => map (fun j => column j a) (seq 0 (List.length r))
  end.

(** [header.replace('\n', '\n' + '# ')]. *)
Fixpoint comment_lines (header : string) : string :=
  match header with
  | EmptyString => EmptyString
  | String ch rest =>
      if Ascii.eqb ch "010"%char
      then String ch ("# " +:+ comment_lines rest)
      else String ch (comment_lines rest)
  end.

Section Savetxt.
Context `{FloatFormat}.

(** One row of the file: the values in the default format, joined. *)
Definition row_text (delimiter newline : string) (row : list R) : string :=
  join delimiter (map sci18 row) +:+ newline.

Fixpoint rows_text (delimiter newline : string) (X : list (list R)) : string :=
  match X with
  | [] => ""
  | row :: rest => row_text delimiter newline row +:+ rows_text delimiter newline rest
  end.

(** The header block: nothing for an empty header, else the header with
    the comment mark before each of its lines. *)
Definition header_text (newline header : string) : string :=
  match header with
  | EmptyString => ""
  | _ => "# " +:+ comment_lines header +:+ newline
  end.

(** What [np.savetxt(fname, X, delimiter=, newline=, header=)] writes. *)
Definition savetxt_text (X : list (list R)) (delimiter newline header : string)
  : string :=
  header_text newline header +:+ rows_text delimiter newline X.
End Savetxt.

End Numpy.

(** ** The host: buffers and the calls of the scripts *)

Module Opera.
Import Py Numpy.

(** A buffer is a table the host holds: named columns sampled at
    [point_total] points. *)
Record buffer : Type := Buffer {
  columns : list string;
  point_total : nat;
  sample : string -> nat -> R
}.

(** The host answers by buffer name. *)
Definition host : Type := string -> buffer.

(** [graph.get_column_data(buffer_name, column_name)]. *)
Definition column_data (b : buffer) (column_name : string) : list R :=
  map (sample b column_name) (seq 0 (point_total b)).

(** Calls into the host, and the file written by [np.savetxt]. *)
Inductive event : Type :=
  | CreatePolyline (points : list (R * R)) (pp_body : bool)
  | CreateCircle (center : R * R) (radius : R) (pp_body : bool)
  | CreateGraph (name : string)
  | LoadCaseNumber (n : Z)
  | CreateBufferFromFieldsOnEdges (name : string) (edges_of : string)
      (point_count : num) (fields : list string)
  | CreateLineFromBuffer (name buffer_name x_array_name y_array_name : string)
  | PlotLine (line graph_name : string)
  | SetLineProperties (line graph_name : string)
  | GetBufferColumnNames (buffer_name : string)
  | GetColumnData (buffer_name column_name : string)
  | CalculateFieldAtPoint (point : R * R) (field : string)
  | WriteFile (fname content : string).


(** [graph.get_buffer_column_names(buffer_name)]. *)
Definition get_buffer_column_names (h : host) (buffer_name : string)
  : M event (list string) :=
  emit (GetBufferColumnNames buffer_name);;
  mret (columns (h buffer_name)).

(** [graph.get_column_data(buffer_name, column_name)]. *)
Definition get_column_data (h : host) (buffer_name column_name : string)
  : M event (list R) :=
  emit (GetColumnData buffer_name column_name);;
  mret (column_data (h buffer_name) column_name).

(** The columns of a buffer, one array each, in the order of its names. *)
Definition column_arrays (b : buffer) : list (list R) :=
  map (column_data b) (columns b).

(** The calls that read a buffer back: its column names, then each column. *)
Definition reads (h : host) (buffer_name : string) : list event :=
  GetBufferColumnNames buffer_name
  :: map (GetColumnData buffer_name) (columns (h buffer_name)).

(** The text of the file a buffer is exported to under a given header. *)
Definition exported_text `{FloatFormat} (b : buffer) (header : string) : string :=
  savetxt_text (T (column_arrays b)) "," nl header.

Definition is_write (e : event) : bool :=
  match e with WriteFile _ _ => true | _ => false end.

(** [[f(x) for x in xs]]. *)
Fixpoint comprehension {A B} (xs : list A) (f : A -> M event B) : M event (list B) :=
  match xs with
  | [] => mret []
  | x :: rest => y ← f x; ys ← comprehension rest f; mret (y :: ys)
  end.

End Opera.

(** ** example_buffer_calculate_graph_and_export.py *)

Module Example.
Import Py Numpy Opera.

(** The INPUTS section (lines 25-38). *)
Record inputs : Type := Inputs {
  initial_case : Z;
  final_case : Z;
  graph_name : string;
  buffer_name_preffix : string;
  graph_line_name_preffix : string;
  points_in_buffer : Z;
  fields_in_buffer : list string;
  plot_x_column : string;
  plot_y_column : string;
  buffer_filename_prefix : option string
}.

(** The values as they stand in the repository. *)
Definition default_inputs : inputs := {|
  initial_case := 29;
  final_case := 43;
  graph_name := "By_plot_after_pulse";
  buffer_name_preffix := "fields_at_";
  graph_line_name_preffix := "line_at_";
  points_in_buffer := 100;
  fields_in_buffer :=
    ["X"; "Y"; "Th"; "R"; "B"; "Bx"; "By"; "Bz"; "J"; "Jx"; "Jy"; "Jz"];
  plot_x_column := "x";
  plot_y_column := "By";
  buffer_filename_prefix := Some "fields_at_"
|}.

Definition opt_str (o : option string) : value :=
  match o with None => VNone | Some s => VStr s end.

(** [range(a, b)]. *)
Definition range (a b : Z) : list Z := seqZ a (b - a).

Section Script.
Context `{FloatFormat}.
Variable h : host.

Definition assign_inputs (i : inputs) : M event unit :=
  assign "initial_case" (VNum (Int (initial_case i)));;
  assign "final_case" (VNum (Int (final_case i)));;
  assign "graph_name" (VStr (graph_name i));;
  assign "buffer_name_preffix" (VStr (buffer_name_preffix i));;
  assign "graph_line_name_preffix" (VStr (graph_line_name_preffix i));;
  assign "points_in_buffer" (VNum (Int (points_in_buffer i)));;
  assign "fields_in_buffer" (VStrs (fields_in_buffer i));;
  assign "plot_x_column" (VStr (plot_x_column i));;
  assign "plot_y_column" (VStr (plot_y_column i));;
  assign "buffer_filename_prefix" (opt_str (buffer_filename_prefix i)).

(** Lines 51-54: the names of the case. *)
Definition case_names (n : Z) : M event unit :=
  pre ← load_str "buffer_name_preffix";
  assign "buffer_name" (VStr (pre +:+ pretty n));;
  pre ← load_str "graph_line_name_preffix";
  assign "line_name" (VStr (pre +:+ pretty n));;
  prefix ← load "buffer_filename_prefix";
  match prefix with
  | VNone => mret tt
  | VStr p => assign "buffer_filename" (VStr (p +:+ pretty n +:+ ".csv"))
  | _ => raise TypeError
  end.

(** Lines 57-71: load the case, compute the buffer, plot its line. *)
Definition buffer_and_line (n : Z) : M event unit :=
  emit (LoadCaseNumber n);;
  buffer_name ← load_str "buffer_name";
  polyline ← load_handle "post_polyline";
  points ← load_num "points_in_buffer";
  fields ← load_strs "fields_in_buffer";
  emit (CreateBufferFromFieldsOnEdges buffer_name polyline points fields);;
  assign "my_buffer" (VHandle buffer_name);;
  line_name ← load_str "line_name";
  buffer_name ← load_str "buffer_name";
  x ← load_str "plot_x_column";
  y ← load_str "plot_y_column";
  emit (CreateLineFromBuffer line_name buffer_name x y);;
  assign "my_line" (VHandle line_name);;
  my_line ← load_handle "my_line";
  graph_name ← load_str "graph_name";
  emit (PlotLine my_line graph_name).

(** Lines 74-81: read the buffer back and write it to a file. *)
Definition export : M event unit :=
  buffer_name ← load_str "buffer_name";
  names ← get_buffer_column_names h buffer_name;
  assign "buffer_column_names" (VStrs names);;
  names ← load_strs "buffer_column_names";
  rows ← comprehension names (fun buffer_column_name =>
            buffer_name ← load_str "buffer_name";
            get_column_data h buffer_name buffer_column_name);
  assign "buffer_data_rows" (VTable rows);;
  buffer_filename ← load_str "buffer_filename";
  rows ← load_table "buffer_data_rows";
  a ← lift (np_array rows);
  names ← load_strs "buffer_column_names";
  emit (WriteFile buffer_filename
          (savetxt_text (T a) "," nl (join "," names))).

Definition loop_body (n : Z) : M event unit :=
  assign "n" (VNum (Int n));;
  case_names n;;
  buffer_and_line n;;
  export.

(** Lines 42-81. *)
Definition script (i : inputs) : M event unit :=
  assign_inputs i;;
  emit (CreatePolyline [(-13, 0); (13, 0)]%R true);;
  assign "post_polyline" (VHandle "post_polyline");;
  graph_name ← load_str "graph_name";
  emit (CreateGraph graph_name);;
  initial_case ← load_num "initial_case";
  final_case ← load_num "final_case";
  match initial_case, final_case with
  | Int a, Int b => for_each (range a (b + 1)) loop_body
  | _, _ => raise TypeError
  end.

(** *** What a run is expected to leave behind *)

Definition case_events (i : inputs) (p : string) (n : Z) : list event :=
  let buffer_name := buffer_name_preffix i +:+ pretty n in
  let line_name := graph_line_name_preffix i +:+ pretty n in
  [ LoadCaseNumber n;
    CreateBufferFromFieldsOnEdges buffer_name "post_polyline"
      (Int (points_in_buffer i)) (fields_in_buffer i);
    CreateLineFromBuffer line_name buffer_name
      (plot_x_column i) (plot_y_column i);
    PlotLine line_name (graph_name i) ]
  ++ reads h buffer_name
  ++ [ WriteFile (p +:+ pretty n +:+ ".csv")
         (savetxt_text (T (column_arrays (h buffer_name))) "," nl
            (join "," (columns (h buffer_name)))) ].

(** The same round when it stops at the export. *)
Definition case_events_before_export (i : inputs) (n : Z) : list event :=
  let buffer_name := buffer_name_preffix i +:+ pretty n in
  let line_name := graph_line_name_preffix i +:+ pretty n in
  [ LoadCaseNumber n;
    CreateBufferFromFieldsOnEdges buffer_name "post_polyline"
      (Int (points_in_buffer i)) (fields_in_buffer i);
    CreateLineFromBuffer line_name buffer_name
      (plot_x_column i) (plot_y_column i);
    PlotLine line_name (graph_name i) ]
  ++ reads h buffer_name.

Definition opening_events (i : inputs) : list event :=
  [ CreatePolyline [(-13, 0); (13, 0)]%R true; CreateGraph (graph_name i) ].
End Script.

(** The names the statements before the loop leave for it. *)
Definition inputs_bound (g : gmap string value) (i : inputs) : Prop :=
  g !! "graph_name" = Some (VStr (graph_name i)) /\
  g !! "buffer_name_preffix" = Some (VStr (buffer_name_preffix i)) /\
  g !! "graph_line_name_preffix" = Some (VStr (graph_line_name_preffix i)) /\
  g !! "points_in_buffer" = Some (VNum (Int (points_in_buffer i))) /\
  g !! "fields_in_buffer" = Some (VStrs (fields_in_buffer i)) /\
  g !! "plot_x_column" = Some (VStr (plot_x_column i)) /\
  g !! "plot_y_column" = Some (VStr (plot_y_column i)) /\
  g !! "buffer_filename_prefix" = Some (opt_str (buffer_filename_prefix i)) /\
  g !! "post_polyline" = Some (VHandle "post_polyline").

(** A round of the loop rebinds the names of the case and no input. *)
Definition keeps_inputs (g g' : gmap string value) : Prop :=
  forall n : string,
    n <> "n" -> n <> "buffer_name" -> n <> "line_name" ->
    n <> "buffer_filename" -> n <> "my_buffer" -> n <> "my_line" ->
    n <> "buffer_column_names" -> n <> "buffer_data_rows" ->
    g' !! n = g !! n.

End Example.

(** ** halbach_2d_cylinders.py *)

Module Halbach.
Import Py Numpy Opera.

(** The INPUTS section (lines 18-62); the two mesh sizes and [bgs_mesh] are
    expressions of [bore_diameter] and are derived below. *)
Record inputs : Type := Inputs {
  n_blocks : num;
  bore_diameter : num;
  gap_blocks : num;
  core_inner_thickness : num;
  core_outer_thickness : num;
  gfr_radius : num;
  gfr_points : num;
  bgs_factor : list num;
  mesh_max : num;
  model_name_prefix : string
}.

(** The values as they stand in the repository. *)
Definition default_inputs : inputs := {|
  n_blocks := Int 12;
  bore_diameter := Int 270;
  gap_blocks := Float (10 / 100);
  core_inner_thickness := Float (10 / 100);
  core_outer_thickness := Float (10 / 100);
  gfr_radius := Int 20;
  gfr_points := Int 3600;
  bgs_factor :=
    [Float (11 / 10); Float (12 / 10); Float (14 / 10); Float (18 / 10);
     Float (26 / 10); Float 5];
  mesh_max := Int 32;
  model_name_prefix := "halbach"
|}.


Open Scope R_scope.

(** [x / y] on Python floats and ints, and on NumPy scalars. *)
Definition py_div (x y : R) : result R :=
  if Req_dec_T y 0 then Raise ZeroDivisionError else Ok (x / y).
Definition np_div (x y : R) : result R :=
  if Req_dec_T y 0 then Raise NotFinite else Ok (x / y).

(** Lines 48-56. *)
Definition mesh_blocks (i : inputs) : R := to_R (bore_diameter i) / 80.
Definition mesh_core (i : inputs) : R := to_R (bore_diameter i) / 80.
Definition bgs_mesh (i : inputs) : list R :=
  [ to_R (bore_diameter i) / 80; to_R (bore_diameter i) / 40;
    to_R (bore_diameter i) / 20; to_R (bore_diameter i) / 10;
    to_R (bore_diameter i) / 5; to_R (bore_diameter i) / 5 ].

(** Lines 101-106: the dimensions derived from the inputs. *)
Record dimensions : Type := Dimensions {
  s : R;
  block_diameter : R;
  device_diameter : R
}.

Definition derive (i : inputs) : result dimensions :=
  rbind (py_div PI (to_R (n_blocks i))) (fun q =>
  let s := sin q in
  rbind (np_div (to_R (bore_diameter i) * s)
           (1 - s - 2 * to_R (core_inner_thickness i) * s
            + to_R (gap_blocks i))) (fun block_diameter =>
  let device_diameter :=
    to_R (bore_diameter i)
    + 2 * block_diameter
    + 2 * to_R (core_inner_thickness i) * block_diameter
    + 2 * to_R (core_outer_thickness i) * block_diameter in
  Ok (Dimensions s block_diameter device_diameter))).

(** Line 129: the distance of the centre of [upper_block] from the origin,
    with the literal [0.5] written [1 / 2]; the other blocks are its copies
    turned by [360/n_blocks] degrees. *)
Definition block_center_radius (i : inputs) (d : dimensions) : R :=
  1 / 2 * to_R (bore_diameter i)
  + to_R (core_inner_thickness i) * block_diameter d
  + 1 / 2 * block_diameter d.

(** The length of the chord between the centres of two adjacent blocks. *)
Definition adjacent_centers_distance (i : inputs) (d : dimensions) : R :=
  2 * block_center_radius i d * s d.

(** [names.index(x)], [min(xs)] and [max(xs)]. *)
Fixpoint index (names : list string) (x : string) : result nat :=
  match names with
  | [] => Raise ValueError
  | y :: rest =>
      if String.eqb y x then Ok O else rbind (index rest x) (fun k => Ok (S k))
  end.

Definition py_min (xs : list R) : result R :=
  match xs with
  | [] => Raise ValueError
  | x :: rest => Ok (fold_left (fun m y => if Rlt_dec y m then y else m) rest x)
  end.

Definition py_max (xs : list R) : result R :=
  match xs with
  | [] => Raise ValueError
  | x :: rest => Ok (fold_left (fun m y => if Rlt_dec m y then y else m) rest x)
  end.

Definition getitem (rows : list (list R)) (k : nat) : result (list R) :=
  match rows !! k with
  | Some row => Ok row
  | None => Raise IndexError
  end.

(** Line 213; the numbers of the host are taken to be Python floats. *)
Definition homogeneity (bmax bmin b0 : R) : result R :=
  py_div (1000000 * (bmax - bmin)) (2 * b0).

(** Lines 209-213. *)
Record gfr_statistics : Type := GfrStatistics {
  bmin : R;
  bmax : R;
  hom : R
}.

Definition statistics (buffer_column_names : list string)
    (buffer_data_rows : list (list R)) (b0 : R) : result gfr_statistics :=
  rbind (index buffer_column_names "B") (fun k =>
  rbind (getitem buffer_data_rows k) (fun column =>
  rbind (py_min column) (fun bmin =>
  rbind (index buffer_column_names "B") (fun k =>
  rbind (getitem buffer_data_rows k) (fun column =>
  rbind (py_max column) (fun bmax =>
  rbind (homogeneity bmax bmin b0) (fun hom =>
  Ok (GfrStatistics bmin bmax hom)))))))).

Close Scope R_scope.

(** The readings of the clock around meshing and solving (lines 169-176),
    and the field the host reports at the origin (lines 211-212). *)
Record readings : Type := Readings {
  t0 : R;
  t1 : R;
  t2 : R;
  b0 : R
}.
Definition time_mesh (r : readings) : R := (t1 r - t0 r)%R.
Definition time_solve (r : readings) : R := (t2 r - t1 r)%R.

(** The calls of POST-PROCESSING before the buffer is read back. *)
Definition probe_events (i : inputs) : list event :=
  [ CreateCircle (0, 0)%R (to_R (gfr_radius i)) true;
    CreateGraph "graph_gfr_field_amplitude";
    CreateBufferFromFieldsOnEdges "buffer_gfr_fields" "post_circle"
      (gfr_points i) ["B"; "Bx"; "By"; "Bz"];
    CreateLineFromBuffer "line_gfr_field_amplitude" "buffer_gfr_fields"
      "Th" "B";
    PlotLine "line_gfr_field_amplitude" "graph_gfr_field_amplitude";
    SetLineProperties "line_gfr_field_amplitude" "graph_gfr_field_amplitude" ].

Section Output.
Context `{FloatFormat}.

(** [str(xs)] for a list of numbers. *)
Definition str_list (xs : list num) : string :=
  "[" +:+ join ", " (map str xs) +:+ "]".

(** One line of the header, [f'{label:<25}: {value}\n']. *)
Definition field (lv : string * string) : string :=
  ljust 25 lv.1 +:+ ": " +:+ lv.2 +:+ nl.

(** Lines 216-241. *)
Definition header (i : inputs) (d : dimensions) (r : readings)
    (g : gfr_statistics) (buffer_column_names : list string) : string :=
  ""
  +:+ field ("n_blocks", str (n_blocks i))
  +:+ field ("bore_diameter (mm)", str (bore_diameter i))
  +:+ field ("gap_blocks", str (gap_blocks i))
  +:+ field ("gap_blocks (mm)",
             repr_float (to_R (gap_blocks i) * block_diameter d))
  +:+ field ("core_inner_thickness", str (core_inner_thickness i))
  +:+ field ("core_inner_thickness (mm)",
             repr_float (to_R (core_inner_thickness i) * block_diameter d))
  +:+ field ("core_outer_thickness", str (core_outer_thickness i))
  +:+ field ("core_outer_thickness (mm)",
             repr_float (to_R (core_outer_thickness i) * block_diameter d))
  +:+ field ("gfr_radius (mm)", str (gfr_radius i))
  +:+ field ("gfr_points", str (gfr_points i))
  +:+ field ("mesh_blocks (mm)", repr_float (mesh_blocks i))
  +:+ field ("mesh_core (mm)", repr_float (mesh_core i))
  +:+ field ("bgs_factor", str_list (bgs_factor i))
  +:+ field ("bgs_mesh (mm)", str_list (map Float (bgs_mesh i)))
  +:+ field ("mesh_max (mm)", str (mesh_max i))
  +:+ field ("Block diameter (mm)", repr_float (block_diameter d))
  +:+ field ("Device diameter (mm)", repr_float (device_diameter d))
  +:+ field ("Meshing time (s)", repr_float (time_mesh r))
  +:+ field ("Solving time (s)", repr_float (time_solve r))
  +:+ field ("Central field (T)", fixed 12 (b0 r))
  +:+ field ("GFR radius (mm)", fixed 12 (bmin g))
  +:+ field ("GFR boundary max. B (T)", fixed 12 (bmin g))
  +:+ field ("GFR boundary min. B (T)", fixed 12 (bmax g))
  +:+ field ("GFR homogeneity (p.p.m.)", fixed 2 (hom g))
  +:+ join "," buffer_column_names.

(** Lines 183-246: POST-PROCESSING up to the export.  Every name is
    assigned once and before its use, so names are binders here. *)
Definition post_processing (h : host) (i : inputs) (d : dimensions)
    (r : readings) : M event unit :=
  emit (CreateCircle (0, 0)%R (to_R (gfr_radius i)) true);;
  emit (CreateGraph "graph_gfr_field_amplitude");;
  emit (CreateBufferFromFieldsOnEdges "buffer_gfr_fields" "post_circle"
          (gfr_points i) ["B"; "Bx"; "By"; "Bz"]);;
  emit (CreateLineFromBuffer "line_gfr_field_amplitude" "buffer_gfr_fields"
          "Th" "B");;
  emit (PlotLine "line_gfr_field_amplitude" "graph_gfr_field_amplitude");;
  emit (SetLineProperties "line_gfr_field_amplitude"
          "graph_gfr_field_amplitude");;
  buffer_column_names ← get_buffer_column_names h "buffer_gfr_fields";
  buffer_data_rows ← comprehension buffer_column_names
                        (get_column_data h "buffer_gfr_fields");
  k ← lift (index buffer_column_names "B");
  column ← lift (getitem buffer_data_rows k);
  bmin ← lift (py_min column);
  k ← lift (index buffer_column_names "B");
  column ← lift (getitem buffer_data_rows k);
  bmax ← lift (py_max column);
  emit (CalculateFieldAtPoint (0, 0)%R "B");;
  hom ← lift (homogeneity bmax bmin (b0 r));
  a ← lift (np_array buffer_data_rows);
  emit (WriteFile (model_name_prefix i +:+ "_gfr_fields.dat")
          (savetxt_text (T a) "," nl
             (header i d r (GfrStatistics bmin bmax hom)
                buffer_column_names))).

(** The header line by line: labels and rendered values. *)
Definition header_fields (i : inputs) (d : dimensions) (r : readings)
    (g : gfr_statistics) : list (string * string) :=
  [ ("n_blocks", str (n_blocks i));
    ("bore_diameter (mm)", str (bore_diameter i));
    ("gap_blocks", str (gap_blocks i));
    ("gap_blocks (mm)", repr_float (to_R (gap_blocks i) * block_diameter d));
    ("core_inner_thickness", str (core_inner_thickness i));
    ("core_inner_thickness (mm)",
     repr_float (to_R (core_inner_thickness i) * block_diameter d));
    ("core_outer_thickness", str (core_outer_thickness i));
    ("core_outer_thickness (mm)",
     repr_float (to_R (core_outer_thickness i) * block_diameter d));
    ("gfr_radius (mm)", str (gfr_radius i));
    ("gfr_points", str (gfr_points i));
    ("mesh_blocks (mm)", repr_float (mesh_blocks i));
    ("mesh_core (mm)", repr_float (mesh_core i));
    ("bgs_factor", str_list (bgs_factor i));
    ("bgs_mesh (mm)", str_list (map Float (bgs_mesh i)));
    ("mesh_max (mm)", str (mesh_max i));
    ("Block diameter (mm)", repr_float (block_diameter d));
    ("Device diameter (mm)", repr_float (device_diameter d));
    ("Meshing time (s)", repr_float (time_mesh r));
    ("Solving time (s)", repr_float (time_solve r));
    ("Central field (T)", fixed 12 (b0 r));
    ("GFR radius (mm)", fixed 12 (bmin g));
    ("GFR boundary max. B (T)", fixed 12 (bmin g));
    ("GFR boundary min. B (T)", fixed 12 (bmax g));
    ("GFR homogeneity (p.p.m.)", fixed 2 (hom g)) ].

Fixpoint lines_text (fields : list (string * string)) : string :=
  match fields with
  | [] => ""
  | lv :: rest => field lv +:+ lines_text rest
  end.

End Output.

End Halbach.

(** ** Sample inputs *)

Module Samples.
Import Py Opera.

(** A rendering of floats that shows no digit.  The statements below hold
    for every rendering; this one serves to instantiate them. *)
Definition blank_format : FloatFormat := {|
  fixed := fun _ _ => "?";
  repr_float := fun _ => "?";
  sci18 := fun _ => "?"
|}.

(** A buffer of two columns sampled at three points, and a host that holds
    it under every name. *)
Definition two_columns : buffer := {|
  columns := ["B"; "Bx"];
  point_total := 3;
  sample := fun c k => if String.eqb c "B" then INR (S k) else 0%R
|}.
Definition sample_host : host := fun _ => two_columns.

(** The example script with the export switched off. *)
Definition no_export : Example.inputs := {|
  Example.initial_case := 29;
  Example.final_case := 43;
  Example.graph_name := "By_plot_after_pulse";
  Example.buffer_name_preffix := "fields_at_";
  Example.graph_line_name_preffix := "line_at_";
  Example.points_in_buffer := 100;
  Example.fields_in_buffer :=
    ["X"; "Y"; "Th"; "R"; "B"; "Bx"; "By"; "Bz"; "J"; "Jx"; "Jy"; "Jz"];
  Example.plot_x_column := "x";
  Example.plot_y_column := "By";
  Example.buffer_filename_prefix := None
|}.

(** The Halbach ring with six blocks, where [sin(pi/n_blocks)] is [1/2],
    and the dimensions it leads to. *)
Definition six_blocks : Halbach.inputs := {|
  Halbach.n_blocks := Int 6;
  Halbach.bore_diameter := Int 270;
  Halbach.gap_blocks := Float (10 / 100);
  Halbach.core_inner_thickness := Float (10 / 100);
  Halbach.core_outer_thickness := Float (10 / 100);
  Halbach.gfr_radius := Int 20;
  Halbach.gfr_points := Int 3600;
  Halbach.bgs_factor := [Float (11 / 10); Float 5];
  Halbach.mesh_max := Int 32;
  Halbach.model_name_prefix := "halbach"
|}.
Definition six_blocks_dimensions : Halbach.dimensions := {|
  Halbach.s := 1 / 2;
  Halbach.block_diameter := 270;
  Halbach.device_diameter := 918
|}.

Definition sample_readings : Halbach.readings := {|
  Halbach.t0 := 0;
  Halbach.t1 := 2;
  Halbach.t2 := 5;
  Halbach.b0 := 1
|}.

(** Module names as the conductor script leaves them before OUTPUT, with
    the clipboard module missing and present. *)
Definition clipboard_off : gmap string value :=
  <["comi" := VStr "BRICK20"]>
    (<["all_points" := VPoints [(0, 0, 0)%R]]>
       (<["to_clipboard" := VBool false]> ∅)).
Definition clipboard_on : gmap string value :=
  <["comi" := VStr "BRICK20"]>
    (<["all_points" := VPoints [(0, 0, 0)%R]]>
       (<["pyperclip" := VModule "pyperclip"]>
          (<["to_clipboard" := VBool true]> ∅))).

End Samples.

(** ** Measures on points and traces *)

Module Measures.
Import Py Opera.

(** The square of the distance of a point from the z axis, and from the
    axis parallel to x through [(0, c, 0)]. *)
Definition from_z_axis (p : vec3) : R := (p.1.1 * p.1.1 + p.1.2 * p.1.2)%R.

(** The files a trace writes and the buffers it creates, in order. *)
Fixpoint written_files (t : list event) : list string :=
  match t with
  | [] => []
  | WriteFile fname _ :: rest => fname :: written_files rest
  | _ :: rest => written_files rest
  end.

Fixpoint created_buffers (t : list event) : list string :=
  match t with
  | [] => []
  | CreateBufferFromFieldsOnEdges name _ _ _ :: rest => name :: created_buffers rest
  | _ :: rest => created_buffers rest
  end.

End Measures.

(** ** halbach_2d_cylinders.py: the blocks and the background *)

Module HalbachBuild.
Import Py Halbach.

(** The calls of lines 129-163 into the model interface.  A body, region,
    edge, vertex, properties object or boundary condition is known by the
    handle the host gave for it. *)
Inductive call : Type :=
  | CreateCircle (handle : string) (center : R * R) (radius : R)
  | CopyBodies (body : string) (rotation_copies : num) (rotation_angle : R)
  | CreateProperties (name : string)
  | SetName (body name : string)
  | SetRotationAngle (properties : string) (degrees : R)
  | SetMaterial (region material : string)
  | SetProperties (region properties : string)
  | SetMeshSize (region : string) (mesh_size : R)
  | SendToBack (body : string)
  | CreateBoundaryCondition (name : string)
  | SetTangentialFieldMagnetic (condition : string)
  | SetEdgeCondition (edge condition : string)
  | SetVertexCondition (vertex condition : string).

(** What the host answers: the bodies [copy_bodies] returns, and the
    regions, edges and vertices of a body. *)
Record geometry : Type := Geometry {
  copied : list string;
  regions : string -> list string;
  edges : string -> list string;
  vertices : string -> list string
}.

(** [x % y] on floats, for a positive [y]. *)
Definition py_mod (x y : R) : R := (x - y * IZR (Int_part (x / y)))%R.

(** [range(n)] and [f"{i:d}"] need an [int]. *)
Definition as_int (n : num) : result Z :=
  match n with Int z => Ok z | Float _ => Raise TypeError end.

(** [n - 1]. *)
Definition minus_one (n : num) : num :=
  match n with Int z => Int (z - 1) | Float r => Float (r - 1) end.

(** [enumerate(xs)]. *)
Definition enumerate {A} (xs : list A) : list (nat * A) :=
  zip (seq 0 (List.length xs)) xs.

(** [[f(x) for x in xs]]. *)
Fixpoint collect {A B} (xs : list A) (f : A -> M call B) : M call (list B) :=
  match xs with
  | [] => mret []
  | x :: rest => y ← f x; ys ← collect rest f; mret (y :: ys)
  end.

(** Line 138: [90+(i*720/n_blocks)%360]. *)
Definition easy_axis_angle (n_blocks i : Z) : result R :=
  rbind (py_div (IZR (i * 720)) (IZR n_blocks)) (fun q =>
  Ok (90 + py_mod q 360)%R).

(** Line 135. *)
Definition create_properties (i : Z) : M call string :=
  emit (CreateProperties ("easy-axis_" +:+ pretty i));;
  mret ("easy-axis_" +:+ pretty i).

(** Lines 137-142: the body of the loop over the blocks. *)
Definition configure_block (g : geometry) (i : inputs) (n_blocks : Z)
    (x : nat * (string * string)) : M call unit :=
  let '(k, (block, property)) := x in
  emit (SetName block ("block_" +:+ pretty k));;
  angle ← lift (easy_axis_angle n_blocks (Z.of_nat k));
  emit (SetRotationAngle property angle);;
  for_each (regions g block) (fun region =>
    emit (SetMaterial region "NdFeB");;
    emit (SetProperties region property);;
    emit (SetMeshSize region (mesh_blocks i))).

(** Lines 129-142. *)
Definition blocks_section (g : geometry) (i : inputs) (d : dimensions)
  : M call unit :=
  emit (CreateCircle "upper_block" (0, block_center_radius i d)%R
          (1 / 2 * block_diameter d)%R);;
  angle ← lift (py_div 360 (to_R (n_blocks i)));
  emit (CopyBodies "upper_block" (minus_one (n_blocks i)) angle);;
  let blocks := "upper_block" :: copied g in
  n ← lift (as_int (n_blocks i));
  properties ← collect (Example.range 0 n) create_properties;
  for_each (enumerate (zip blocks properties)) (configure_block g i n).

(** [xs[k]] and [xs[-1]]. *)
Definition getitem (xs : list string) (k : nat) : result string :=
  match xs !! k with Some x => Ok x | None => Raise IndexError end.
Definition last_item (xs : list string) : result string :=
  match last xs with Some x => Ok x | None => Raise IndexError end.

(** Lines 149-154: the loop that creates the background circles; [bgs] is
    the list built so far. *)
Fixpoint backgrounds_loop (g : geometry) (d : dimensions)
    (rounds : list (nat * (num * R))) (bgs : list string)
  : M call (list string) :=
  match rounds with
  | [] => mret bgs
  | (k, (bg_factor, bg_mesh)) :: rest =>
      emit (CreateCircle ("bg" +:+ pretty k) (0, 0)%R
              (1 / 2 * device_diameter d * to_R bg_factor)%R);;
      let bgs := (bgs ++ ["bg" +:+ pretty k])%list in
      body ← lift (getitem bgs k);
      for_each (regions g body) (fun region =>
        emit (SetMeshSize region bg_mesh));;
      backgrounds_loop g d rest bgs
  end.

(** Lines 148-163. *)
Definition backgrounds_section (g : geometry) (i : inputs) (d : dimensions)
  : M call unit :=
  bgs ← backgrounds_loop g d (enumerate (zip (bgs_factor i) (bgs_mesh i))) [];
  for_each bgs (fun bg => emit (SendToBack bg));;
  emit (CreateBoundaryCondition "tangent_magnetic");;
  emit (SetTangentialFieldMagnetic "tangent_magnetic");;
  outer ← lift (last_item bgs);
  for_each (edges g outer) (fun edge =>
    emit (SetEdgeCondition edge "tangent_magnetic"));;
  outer ← lift (last_item bgs);
  for_each (vertices g outer) (fun vertex =>
    emit (SetVertexCondition vertex "tangent_magnetic")).

(** *** What the two sections are expected to leave behind *)

Definition block_events (g : geometry) (i : inputs) (n_blocks : Z)
    (x : nat * (string * string)) : list call :=
  [ SetName x.2.1 ("block_" +:+ pretty x.1);
    SetRotationAngle x.2.2
      (90 + py_mod (IZR (Z.of_nat x.1 * 720) / IZR n_blocks) 360)%R ]
  ++ concat (map (fun region =>
       [ SetMaterial region "NdFeB";
         SetProperties region x.2.2;
         SetMeshSize region (mesh_blocks i) ]) (regions g x.2.1)).

Definition property_names (n : Z) : list string :=
  map (fun k : Z => "easy-axis_" +:+ pretty k) (Example.range 0 n).

Definition background_names (count : nat) : list string :=
  map (fun k : nat => "bg" +:+ pretty k) (seq 0 count).

Definition background_events (g : geometry) (d : dimensions)
    (x : nat * (num * R)) : list call :=
  CreateCircle ("bg" +:+ pretty x.1) (0, 0)%R
    (1 / 2 * device_diameter d * to_R x.2.1)%R
  :: map (fun region => SetMeshSize region x.2.2)
       (regions g ("bg" +:+ pretty x.1)).

Definition is_circle (c : call) : bool :=
  match c with CreateCircle _ _ _ => true | _ => false end.

End HalbachBuild.

(** ** Lines of text *)

Module Lines.
Import Py.

(** The number of line feeds of a text, and texts on one line. *)
Fixpoint count_nl (s : string) : nat :=
  match s with
  | EmptyString => O
  | String ch rest =>
      if Ascii.eqb ch "010"%char then S (count_nl rest) else count_nl rest
  end.

Definition one_line (s : string) : Prop := count_nl s = O.

(** A rendering of floats that never breaks the line. *)
Definition renders_on_one_line (F : FloatFormat) : Prop :=
  (forall d x, one_line (fixed d x)) /\
  (forall x, one_line (repr_float x)) /\
  (forall x, one_line (sci18 x)).

(** The lines of the header of the Halbach file as they stand in the file,
    each behind the comment mark. *)
Fixpoint commented_lines `{FloatFormat} (fields : list (string * string))
  : string :=
  match fields with
  | [] => ""
  | lv :: rest => "# " +:+ Halbach.field lv +:+ commented_lines rest
  end.

End Lines.

(** ** More sample inputs *)

Module MoreSamples.
Import Py Opera HalbachBuild.

(** A host whose bodies have one region, one edge and one vertex each, and
    that returns five copies of the upper block. *)
Definition six_copies : geometry := {|
  copied := ["copy_1"; "copy_2"; "copy_3"; "copy_4"; "copy_5"];
  regions := fun body => [body +:+ ".region"];
  edges := fun body => [body +:+ ".edge"];
  vertices := fun body => [body +:+ ".vertex"]
|}.

(** The Halbach ring with two blocks, where [sin(pi/n_blocks)] is 1, and
    with no background. *)
Definition two_blocks : Halbach.inputs := {|
  Halbach.n_blocks := Int 2;
  Halbach.bore_diameter := Int 270;
  Halbach.gap_blocks := Float (10 / 100);
  Halbach.core_inner_thickness := Float (10 / 100);
  Halbach.core_outer_thickness := Float (10 / 100);
  Halbach.gfr_radius := Int 20;
  Halbach.gfr_points := Int 3600;
  Halbach.bgs_factor := [];
  Halbach.mesh_max := Int 32;
  Halbach.model_name_prefix := "halbach"
|}.
Definition two_blocks_dimensions : Halbach.dimensions := {|
  Halbach.s := 1;
  Halbach.block_diameter := -2700;
  Halbach.device_diameter := -6210
|}.

(** A buffer without the column of the field amplitude, and one without
    sample points. *)
Definition no_B_column : buffer := {|
  columns := ["Bx"; "By"];
  point_total := 3;
  sample := fun _ _ => 0%R
|}.
Definition no_points : buffer := {|
  columns := ["B"; "Bx"];
  point_total := 0;
  sample := fun _ _ => 0%R
|}.

(** The example script with the cases in the wrong order. *)
Definition no_case : Example.inputs := {|
  Example.initial_case := 43;
  Example.final_case := 29;
  Example.graph_name := "By_plot_after_pulse";
  Example.buffer_name_preffix := "fields_at_";
  Example.graph_line_name_preffix := "line_at_";
  Example.points_in_buffer := 100;
  Example.fields_in_buffer := ["X"; "By"];
  Example.plot_x_column := "x";
  Example.plot_y_column := "By";
  Example.buffer_filename_prefix := None
|}.


(** Curved conductors whose radius and rotation centre are ints, so that
    [face1_extremes] is an int64 array: one turned by a right angle, one by
    no angle. *)
Definition int_right_angle : Conductor.inputs := {|
  Conductor.length := Int 450;
  Conductor.rotation_center_y := Some (Int 100);
  Conductor.angle := Some (Int 90);
  Conductor.radius := Int 2;
  Conductor.current_dens := Int 1;
  Conductor.tolerance := Float (1 / 1000);
  Conductor.drive_label := "Default_Drive";
  Conductor.coordinate_system := "coil1_p8"
|}.
Definition int_zero_angle : Conductor.inputs := {|
  Conductor.length := Int 450;
  Conductor.rotation_center_y := Some (Int 100);
  Conductor.angle := Some (Int 0);
  Conductor.radius := Int 2;
  Conductor.current_dens := Int 1;
  Conductor.tolerance := Float (1 / 1000);
  Conductor.drive_label := "Default_Drive";
  Conductor.coordinate_system := "coil1_p8"
|}.

(** Readings with no field at the origin. *)
Definition zero_field : Halbach.readings := {|
  Halbach.t0 := 0;
  Halbach.t1 := 2;
  Halbach.t2 := 5;
  Halbach.b0 := 0
|}.

End MoreSamples.

(** ** The int64 arrays of the conductor script

    [np.array] of a nested list of Python ints is an int64 array, and NumPy
    adds and subtracts int64 arrays modulo [2^64] without an error.  In the
    conductor script this concerns [face1_extremes] alone, whose entries are
    [radius], [-radius] and [0]: with an int [radius] and an int
    [rotation_center_y], line 69 computes
    [face1_extremes - np.array([0,rotation_center_y,0])] in int64.  The
    products [rotx @ ...] of lines 78-80 are float64, and so is everything
    computed from them. *)

Module Int64.
Import Py Conductor.

Definition fits_int64 (z : Z) : Prop := (- 2 ^ 63 <= z < 2 ^ 63)%Z.

(** The int64 that NumPy stores for the integer [z]. *)
Definition wrap64 (z : Z) : Z := ((z + 2 ^ 63) mod 2 ^ 64 - 2 ^ 63)%Z.

(** Rows of an int64 array, and their values as real numbers. *)
Definition ivec3 : Type := Z * Z * Z.
Definition to_vec3 (p : ivec3) : vec3 := (IZR p.1.1, IZR p.1.2, IZR p.2).

(** [face1_extremes] of lines 63-66 for an int [radius]. *)
Definition int_extremes (radius : Z) : list ivec3 :=
  [ (radius, 0, 0); (0, - radius, 0); (- radius, 0, 0); (0, radius, 0) ]%Z.

(** [a - np.array(v)] on int64 arrays. *)
Definition int_sub_rows (ps : list ivec3) (v : ivec3) : list ivec3 :=
  map (fun p => (wrap64 (p.1.1 - v.1.1), wrap64 (p.1.2 - v.1.2),
                 wrap64 (p.2 - v.2))) ps.

(** Line 69 for an int [radius] and an int [rotation_center_y]. *)
Definition shifted_int_extremes (radius rotation_center_y : Z) : list ivec3 :=
  int_sub_rows (int_extremes radius) (0, rotation_center_y, 0)%Z.

(** The array that line 69 binds to [face1_extremes]: the int64 difference
    for an int [radius] and an int [rotation_center_y], the float64
    difference otherwise. *)
Definition numpy_shifted_extremes (radius rotation_center_y : num) : list vec3 :=
  match radius, rotation_center_y with
  | Int r, Int c => map to_vec3 (shifted_int_extremes r c)
  | _, _ => sub_rows (extremes (to_R radius)) (0, to_R rotation_center_y, 0)%R
  end.

(** No entry of the int64 arrays of the curved construction leaves the range
    of int64: the inputs and their negations fit, and so do the differences
    of line 69.  Nothing is asked of a straight conductor, of a float
    [radius] or of a float [rotation_center_y]: the arrays are float64
    then, or are not shifted. *)
Definition no_int64_wrap (i : inputs) : Prop :=
  match angle i, radius i, rotation_center_y i with
  | Some _, Int r, Some (Int c) =>
      fits_int64 r /\ fits_int64 (- r) /\ fits_int64 c /\
      fits_int64 (- c) /\ fits_int64 (r - c) /\ fits_int64 (- r - c)
  | _, _, _ => True
  end.

End Int64.

(** ** Reasoning about statements *)

Module PyFacts.
Import Py.

Lemma string_app_cons (ch : ascii) (a b : string) :
  String ch a +:+ b = String ch (a +:+ b).
Proof. reflexivity. Qed.

Lemma string_app_assoc (a b c : string) : (a +:+ b) +:+ c = a +:+ (b +:+ c).
Proof.
  induction a as [|ch a IH]; [reflexivity|].
  rewrite !string_app_cons, IH. reflexivity.
Qed.

Lemma string_app_nil_r (a : string) : a +:+ "" = a.
Proof.
  induction a as [|ch a IH]; [reflexivity|].
  rewrite string_app_cons, IH. reflexivity.
Qed.

Section Exec.
Context {E : Type}.
Implicit Types (s : state E) (n : string) (v : value).

Lemma bind_assoc {A B C} (m : M E A) (f : A -> M E B) (g : B -> M E C) s :
  ((m ≫= f) ≫= g) s = (m ≫= (fun x => f x ≫= g)) s.
Proof.
  unfold mbind, M_bind, bind. destruct (m s) as [[a|e] s']; reflexivity.
Qed.

Lemma bind_ret {A B} (a : A) (k : A -> M E B) s : (mret a ≫= k) s = k a s.
Proof. reflexivity. Qed.

Lemma bind_raise {A B} (e : exn) (k : A -> M E B) s :
  (raise e ≫= k) s = (Raise e, s).
Proof. reflexivity. Qed.

Lemma bind_assign {B} n v (k : unit -> M E B) s :
  (assign n v ≫= k) s = k tt (State (<[n := v]> (globals s)) (trace s)).
Proof. reflexivity. Qed.

Lemma bind_emit {B} (e : E) (k : unit -> M E B) s :
  (emit e ≫= k) s = k tt (State (globals s) (trace s ++ [e])).
Proof. reflexivity. Qed.

Lemma bind_load {B} n v (k : value -> M E B) s :
  globals s !! n = Some v -> (load n ≫= k) s = k v s.
Proof.
  intros Hn. unfold mbind, M_bind, bind, load. rewrite Hn. reflexivity.
Qed.

Lemma bind_load_unbound {B} n (k : value -> M E B) s :
  globals s !! n = None -> (load n ≫= k) s = (Raise (NameError n), s).
Proof.
  intros Hn. unfold mbind, M_bind, bind, load. rewrite Hn. reflexivity.
Qed.

(** A computation that ends well can be run first. *)
Lemma bind_run {A B} (m : M E A) (k : A -> M E B) s a s' :
  m s = (Ok a, s') -> (m ≫= k) s = k a s'.
Proof. intros Hm. unfold mbind, M_bind, bind. rewrite Hm. reflexivity. Qed.

Lemma bind_fail {A B} (m : M E A) (k : A -> M E B) s e s' :
  m s = (Raise e, s') -> (m ≫= k) s = (Raise e, s').
Proof. intros Hm. unfold mbind, M_bind, bind. rewrite Hm. reflexivity. Qed.

Lemma bind_load_R {B} n x (k : R -> M E B) s :
  globals s !! n = Some (VNum x) -> (load_R n ≫= k) s = k (to_R x) s.
Proof.
  intros Hn. unfold load_R. rewrite bind_assoc, (bind_load _ _ _ _ Hn).
  reflexivity.
Qed.

Lemma bind_load_num {B} n x (k : num -> M E B) s :
  globals s !! n = Some (VNum x) -> (load_num n ≫= k) s = k x s.
Proof.
  intros Hn. unfold load_num. rewrite bind_assoc, (bind_load _ _ _ _ Hn).
  reflexivity.
Qed.

Lemma bind_load_str {B} n x (k : string -> M E B) s :
  globals s !! n = Some (VStr x) -> (load_str n ≫= k) s = k x s.
Proof.
  intros Hn. unfold load_str. rewrite bind_assoc, (bind_load _ _ _ _ Hn).
  reflexivity.
Qed.

Lemma bind_load_points {B} n x (k : list vec3 -> M E B) s :
  globals s !! n = Some (VPoints x) -> (load_points n ≫= k) s = k x s.
Proof.
  intros Hn. unfold load_points. rewrite bind_assoc, (bind_load _ _ _ _ Hn).
  reflexivity.
Qed.

Lemma bind_load_R_None {B} n (k : R -> M E B) s :
  globals s !! n = Some VNone -> (load_R n ≫= k) s = (Raise TypeError, s).
Proof.
  intros Hn. unfold load_R. rewrite bind_assoc, (bind_load _ _ _ _ Hn).
  reflexivity.
Qed.

Lemma bind_load_strs {B} n x (k : list string -> M E B) s :
  globals s !! n = Some (VStrs x) -> (load_strs n ≫= k) s = k x s.
Proof.
  intros Hn. unfold load_strs. rewrite bind_assoc, (bind_load _ _ _ _ Hn).
  reflexivity.
Qed.

Lemma bind_load_table {B} n x (k : list (list R) -> M E B) s :
  globals s !! n = Some (VTable x) -> (load_table n ≫= k) s = k x s.
Proof.
  intros Hn. unfold load_table. rewrite bind_assoc, (bind_load _ _ _ _ Hn).
  reflexivity.
Qed.

Lemma bind_load_handle {B} n x (k : string -> M E B) s :
  globals s !! n = Some (VHandle x) -> (load_handle n ≫= k) s = k x s.
Proof.
  intros Hn. unfold load_handle. rewrite bind_assoc, (bind_load _ _ _ _ Hn).
  reflexivity.
Qed.

Lemma bind_load_str_unbound {B} n (k : string -> M E B) s :
  globals s !! n = None -> (load_str n ≫= k) s = (Raise (NameError n), s).
Proof.
  intros Hn. unfold load_str. rewrite bind_assoc.
  apply bind_load_unbound, Hn.
Qed.

Lemma bind_lift_ok {A B} (a : A) (k : A -> M E B) s :
  (lift (Ok a) ≫= k) s = k a s.
Proof. reflexivity. Qed.

Lemma bind_lift_raise {A B} (e : exn) (k : A -> M E B) s :
  (lift (Raise e : result A) ≫= k) s = (Raise e, s).
Proof. reflexivity. Qed.

Lemma for_each_nil {A} (body : A -> M E unit) s :
  for_each [] body s = (Ok tt, s).
Proof. reflexivity. Qed.

Lemma for_each_cons {A} (x : A) xs (body : A -> M E unit) s :
  for_each (x :: xs) body s = (body x ≫= fun _ => for_each xs body) s.
Proof. reflexivity. Qed.

Lemma for_each_unfold {A} (x : A) xs (body : A -> M E unit) :
  for_each (x :: xs) body = (body x ≫= fun _ => for_each xs body).
Proof. reflexivity. Qed.

Lemma bind_for_each_nil {A B} (body : A -> M E unit) (k : unit -> M E B) s :
  (for_each [] body ≫= k) s = k tt s.
Proof. reflexivity. Qed.

Lemma bind_for_each_cons {A B} (x : A) xs (body : A -> M E unit)
    (k : unit -> M E B) s :
  (for_each (x :: xs) body ≫= k) s
  = (body x ≫= fun _ => for_each xs body ≫= k) s.
Proof.
  rewrite for_each_unfold. apply bind_assoc.
Qed.
End Exec.

(** One lookup in a stack of assignments. *)
Ltac strip_inserts :=
  cbn [globals trace];
  repeat (rewrite lookup_insert_ne by (intro; discriminate)).
Ltac lookup_name :=
  strip_inserts;
  first [ apply lookup_insert_eq | apply lookup_empty | eassumption ].

(** One statement of a sequence. *)
Ltac step_with extra :=
  first
    [ rewrite bind_assoc
    | rewrite bind_ret
    | rewrite bind_assign
    | rewrite bind_emit
    | rewrite bind_for_each_nil
    | rewrite bind_for_each_cons
    | rewrite bind_lift_ok
    | erewrite bind_load_R by lookup_name
    | erewrite bind_load_num by lookup_name
    | erewrite bind_load_str by lookup_name
    | erewrite bind_load_points by lookup_name
    | erewrite bind_load_strs by lookup_name
    | erewrite bind_load_table by lookup_name
    | erewrite bind_load_handle by lookup_name
    | extra
    | erewrite bind_load by lookup_name ];
  cbn [globals trace].

End PyFacts.

(** ** The int64 arrays of the conductor script *)

Module Int64Facts.
Import Py Conductor Int64.

Lemma wrap64_fits (z : Z) : fits_int64 z -> wrap64 z = z.
Proof.
  unfold fits_int64, wrap64. intros Hz.
  rewrite Z.mod_small by lia. lia.
Qed.

Lemma wrap64_range (z : Z) : fits_int64 (wrap64 z).
Proof.
  unfold fits_int64, wrap64.
  pose proof (Z.mod_pos_bound (z + 2 ^ 63) (2 ^ 64)) as Hm. lia.
Qed.

(** Within the range of int64 the difference of line 69 is the difference
    in the real numbers that [shift_to_center] takes. *)
Lemma shifted_extremes_are_exact (r c : Z) :
  fits_int64 r -> fits_int64 (- r) -> fits_int64 (- c) ->
  fits_int64 (r - c) -> fits_int64 (- r - c) ->
  map to_vec3 (shifted_int_extremes r c)
  = sub_rows (extremes (IZR r)) (0, IZR c, 0)%R.
Proof.
  intros Hr Hnr Hnc Hrc Hnrc.
  unfold shifted_int_extremes, int_sub_rows, int_extremes, sub_rows, extremes,
    to_vec3, vsub.
  cbn [map fst snd].
  rewrite !Z.sub_0_r, !Z.sub_0_l.
  rewrite (wrap64_fits r), (wrap64_fits (- r)), (wrap64_fits (- c)),
    (wrap64_fits (r - c)), (wrap64_fits (- r - c)), (wrap64_fits 0)
    by (assumption || (unfold fits_int64; lia)).
  rewrite !minus_IZR, !opp_IZR.
  repeat f_equal; ring.
Qed.

(** For the inputs of [no_int64_wrap], [shift_to_center] binds to
    [face1_extremes] the array that line 69 binds to it. *)
Lemma shift_to_center_is_exact (i : inputs) (a c : num) :
  angle i = Some a -> rotation_center_y i = Some c -> no_int64_wrap i ->
  numpy_shifted_extremes (radius i) c
  = sub_rows (extremes (to_R (radius i))) (0, to_R c, 0)%R.
Proof.
  intros Ha Hc. unfold no_int64_wrap, numpy_shifted_extremes.
  rewrite Ha, Hc. destruct (radius i) as [r|x], c as [z|y]; try reflexivity.
  intros (Hr & Hnr & _ & Hnc & Hrc & Hnrc).
  apply shifted_extremes_are_exact; assumption.
Qed.

(** The shift back of line 83 undoes the shift of line 69 also where it
    wraps: addition and subtraction are modulo [2^64]. *)
Lemma wrap64_shift_back (y c : Z) :
  fits_int64 y -> wrap64 (wrap64 (y - c) + c) = y.
Proof.
  unfold fits_int64, wrap64. intros Hy.
  pose proof (Z.div_mod (y - c + 2 ^ 63) (2 ^ 64)) as Hq.
  set (q := ((y - c + 2 ^ 63) / 2 ^ 64)%Z) in Hq.
  set (m := ((y - c + 2 ^ 63) mod 2 ^ 64)%Z) in *.
  replace (m - 2 ^ 63 + c + 2 ^ 63)%Z with (y + 2 ^ 63 + - q * 2 ^ 64)%Z by lia.
  rewrite Z_mod_plus_full, Z.mod_small by lia. lia.
Qed.

(** Beyond the range the two differ: for [radius = 2] and
    [rotation_center_y = 2^63 - 1] the second row of the shifted array holds
    [2^63 - 1] where the real difference is [-2^63 - 1]. *)
Lemma shifted_extremes_wrap :
  shifted_int_extremes 2 (2 ^ 63 - 1) !! 1%nat
  = Some (0, 2 ^ 63 - 1, 0)%Z /\
  ~ fits_int64 (- 2 - (2 ^ 63 - 1)).
Proof.
  split; [reflexivity|]. unfold fits_int64. lia.
Qed.

End Int64Facts.

(** ** The conductor script *)

Module ConductorFacts.
Import Py PyFacts Conductor Int64 Samples.

Section Facts.
Context `{FloatFormat}.

Lemma header_runs (found : bool) :
  exists g,
    header found init = (Ok tt, State g []) /\
    g !! "a" = None /\
    g !! "to_clipboard" = Some (VBool found) /\
    g !! "sqr" = Some (VNum (Float (sqrt 2 / 2))) /\
    (g !! "pyperclip" = if found then Some (VModule "pyperclip") else None).
Proof.
  destruct found; eexists; (split; [reflexivity|]); cbn [globals];
    repeat split; lookup_name.
Qed.

Lemma bind_getitem {B} (a : list vec3) i p (k : vec3 -> M event B) s :
  a !! i = Some p -> (getitem a i ≫= k) s = k p s.
Proof. intros Hi. unfold getitem. rewrite Hi. reflexivity. Qed.

Lemma bind_setitem {B} (a : list vec3) i v (k : list vec3 -> M event B) s :
  (i < List.length a)%nat -> (setitem a i v ≫= k) s = k (<[i := v]> a) s.
Proof.
  intros Hi. unfold setitem. rewrite decide_True by exact Hi. reflexivity.
Qed.

Ltac step :=
  step_with ltac:(first
    [ erewrite bind_getitem by reflexivity
    | rewrite bind_setitem by (cbn; lia) ]).

Ltac frame_names :=
  intros ? ? ? ? ? ?; cbn [globals];
  repeat (rewrite lookup_insert_ne by congruence); reflexivity.

Lemma translate_vadd v p : vadd p v = translate v p.
Proof. destruct p as [[x y] z], v as [[a b] c]. reflexivity. Qed.

Lemma add_rows_translate ps v : add_rows ps v = map (translate v) ps.
Proof. unfold add_rows. apply map_ext. intros p. apply translate_vadd. Qed.

Lemma generate_points_straight g t i :
  inputs_bound g i -> angle i = None ->
  exists g',
    generate_points (State g t) = (Ok tt, State g' t) /\
    faces_bound g' (straight_faces (to_R (radius i)) (to_R (length i))) /\
    only_faces_change g g'.
Proof.
  intros (Hsqr & Hlen & Hc & Ha & Hr & _) Hnone. rewrite Hnone in Ha. cbn in Ha.
  eexists. split; [|split].
  - unfold generate_points. step. unfold straight_branch.
    repeat step. reflexivity.
  - unfold faces_bound, straight_faces; cbn [face1_corners face1_extremes face2_corners face3_corners face3_extremes to_R].
    rewrite <- !add_rows_translate.
    repeat split; lookup_name.
  - frame_names.
Qed.

Open Scope R_scope.
Lemma shift_there_and_back p c : vadd (vsub p (0, c, 0)) (0, c, 0) = p.
Proof. destruct p as [[x y] z]. cbn. f_equal; [f_equal|]; lra. Qed.

Lemma rotx_once a c p :
  vadd (matvec (rotx a) (vsub p (0, c, 0))) (0, c, 0)
  = rotate_about_x_axis c (- a / 2) p.
Proof.
  destruct p as [[x y] z]. unfold rotx, cosd, sind, radians, rotate_about_x_axis.
  cbn. f_equal; [f_equal|]; ring.
Qed.

Lemma rotx_twice a c p :
  vadd (matvec (rotx a) (matvec (rotx a) (vsub p (0, c, 0)))) (0, c, 0)
  = rotate_about_x_axis c (- a) p.
Proof.
  destruct p as [[x y] z]. unfold rotx, cosd, sind, radians, rotate_about_x_axis.
  cbn.
  replace (- a * (PI / 180)) with (2 * (- a / 2 * (PI / 180))) by field.
  rewrite cos_2a, sin_2a.
  f_equal; [f_equal|]; ring.
Qed.
Close Scope R_scope.

Lemma generate_points_curved g t i a c :
  inputs_bound g i -> angle i = Some a -> rotation_center_y i = Some c ->
  exists g',
    generate_points (State g t) = (Ok tt, State g' t) /\
    faces_bound g' (curved_faces (to_R (radius i)) (to_R a) (to_R c)) /\
    only_faces_change g g'.
Proof.
  intros (Hsqr & Hlen & Hc & Ha & Hr & _) Hsome Hrcy.
  rewrite Hsome in Ha. rewrite Hrcy in Hc. cbn in Ha, Hc.
  eexists. split; [|split].
  - unfold generate_points. step. unfold curved_branch.
    unfold zeros, corners, extremes, sub_rows, shift_to_center, shift_back.
    cbn [replicate map seq].
    unfold rotate_rows.
    repeat step.
    reflexivity.
  - unfold faces_bound, curved_faces;
      cbn [face1_corners face1_extremes face2_corners face3_corners
           face3_extremes globals].
    repeat split; (etrans; [lookup_name|]); do 2 f_equal;
      unfold add_rows, sub_rows, corners, extremes;
      cbn [map insert list_insert];
      rewrite ?shift_there_and_back, ?rotx_once, ?rotx_twice; reflexivity.
  - frame_names.
Qed.

Lemma generate_points_no_center g t i a :
  inputs_bound g i -> angle i = Some a -> rotation_center_y i = None ->
  exists g', generate_points (State g t) = (Raise TypeError, State g' t).
Proof.
  intros (Hsqr & Hlen & Hc & Ha & Hr & _) Hsome Hrcy.
  rewrite Hsome in Ha. rewrite Hrcy in Hc. cbn in Ha, Hc.
  eexists.
  unfold generate_points. step. unfold curved_branch.
  unfold shift_to_center. repeat step.
  erewrite bind_load_R_None by lookup_name. reflexivity.
Qed.


Lemma command_body_runs (np : nat * vec3) g t c :
  g !! "comi" = Some (VStr c) ->
  command_body np (State g t)
  = (Ok tt, State (<["comi" := VStr (c +:+ point_fragment np)]> g)
                  (t ++ [point_event np])%list).
Proof.
  intros Hc. destruct np as [n [[x y] z]].
  unfold command_body, print_point, append_comi.
  repeat step. unfold assign. cbn [globals trace].
  rewrite !insert_insert_eq, !string_app_assoc. reflexivity.
Qed.

Lemma command_loop (nps : list (nat * vec3)) g t c :
  g !! "comi" = Some (VStr c) ->
  exists g',
    for_each nps command_body (State g t)
    = (Ok tt, State g' (t ++ map point_event nps)%list) /\
    g' !! "comi" = Some (VStr (c +:+ fragments nps)) /\
    only_comi_changes g g'.
Proof.
  revert g t c. induction nps as [|np nps IH]; intros g t c Hc.
  - exists g. rewrite for_each_nil, app_nil_r. cbn [fragments].
    rewrite string_app_nil_r.
    split; [reflexivity|split; [exact Hc|intros ? ?; reflexivity]].
  - edestruct (IH (<["comi" := VStr (c +:+ point_fragment np)]> g)
                 (t ++ [point_event np])%list) as (g' & Hrun & Hcomi & Hfr).
    { apply lookup_insert_eq. }
    exists g'. split; [|split].
    + rewrite for_each_cons.
      erewrite bind_run by (apply command_body_runs; exact Hc).
      rewrite Hrun. cbn [map]. rewrite <- app_assoc. reflexivity.
    + rewrite Hcomi. cbn [fragments]. rewrite string_app_assoc. reflexivity.
    + intros m Hm. rewrite (Hfr m Hm). apply lookup_insert_ne. congruence.
Qed.

Lemma print_loop (nps : list (nat * vec3)) g t :
  for_each nps (fun np : nat * vec3 => print_point np.1 np.2) (State g t)
  = (Ok tt, State g (t ++ map point_event nps)%list).
Proof.
  revert t. induction nps as [|np nps IH]; intros t.
  - rewrite for_each_nil, app_nil_r. reflexivity.
  - rewrite for_each_cons. cbv beta.
    change (print_point np.1 np.2) with (emit (point_event np)).
    rewrite bind_emit.
    cbn [globals trace]. rewrite IH. cbn [map]. rewrite <- app_assoc.
    reflexivity.
Qed.

(** CREATE COMMAND from a state where the points and inputs are bound. *)
Lemma create_command_runs g t i f :
  inputs_bound g i -> faces_bound g f ->
  exists g',
    create_command (State g t)
    = (Ok tt, State g' (t ++ map point_event (numbered (all_points_of f)))%list) /\
    g' !! "comi" = Some (VStr (command_text i (all_points_of f))) /\
    g' !! "all_points" = Some (VPoints (all_points_of f)) /\
    (forall n : string, n <> "comi" -> n <> "all_points" -> g' !! n = g !! n).
Proof.
  intros (Hsqr & Hlen & Hc & Ha & Hr & Hcd & Htol & Hdl & Hcs)
         (H1c & H1e & H2c & H3c & H3e).
  unfold create_command.
  edestruct (command_loop (numbered (all_points_of f))
     (<["comi" := VStr "BRICK20 OPTION=NEW -KEEP "]>
        (<["all_points" := VPoints (all_points_of f)]> g)) t)
    as (g1 & Hrun & Hcomi & Hfr).
  { apply lookup_insert_eq. }
  assert (Hfr' : forall n v, n <> "comi" -> n <> "all_points" ->
             g !! n = Some v -> g1 !! n = Some v).
  { intros n v ? ? Hn. rewrite Hfr by assumption.
    rewrite !lookup_insert_ne by congruence. exact Hn. }
  eexists. split; [|split; [|split]].
  - repeat step. fold (all_points_of f).
    erewrite bind_run by exact Hrun.
    unfold append_comi.
    repeat first [ step
                 | erewrite bind_load_str by (strip_inserts; exact Hcomi)
                 | erewrite bind_load_num
                     by (strip_inserts; apply Hfr'; [congruence..|eassumption])
                 | erewrite bind_load_str
                     by (strip_inserts; apply Hfr'; [congruence..|eassumption]) ].
    unfold assign. cbn [globals trace]. reflexivity.
  - etrans; [lookup_name|]. do 2 f_equal.
    unfold command_text, command_tail, numbered.
    rewrite !string_app_assoc. reflexivity.
  - rewrite !lookup_insert_ne by congruence. rewrite Hfr by congruence.
    rewrite lookup_insert_ne by congruence. apply lookup_insert_eq.
  - intros n ? ?. rewrite !lookup_insert_ne by congruence.
    rewrite Hfr by assumption. rewrite !lookup_insert_ne by congruence.
    reflexivity.
Qed.

Lemma prelude_runs (found : bool) (i : inputs) :
  exists g,
    (header found ≫= fun _ => assign_inputs i) init = (Ok tt, State g []) /\
    inputs_bound g i /\
    g !! "to_clipboard" = Some (VBool found) /\
    (g !! "pyperclip" = if found then Some (VModule "pyperclip") else None).
Proof.
  destruct found; eexists; (split; [reflexivity|]); cbn [globals];
    unfold inputs_bound; repeat split; lookup_name.
Qed.

Lemma points_run (found : bool) (i : inputs) :
  exists g,
    inputs_bound g i /\
    g !! "to_clipboard" = Some (VBool found) /\
    (g !! "pyperclip" = if found then Some (VModule "pyperclip") else None) /\
    forall (B : Type) (k : unit -> M event B),
      (header found ≫= fun _ => assign_inputs i ≫= k) init = k tt (State g []).
Proof.
  destruct (prelude_runs found i) as (g & Hrun & Hb & Hclip & Hpy).
  exists g. repeat (split; [assumption|]). intros B k.
  rewrite <- bind_assoc. erewrite bind_run by exact Hrun. reflexivity.
Qed.

(** C1.  Evaluation of the script raises an error for every configuration,
    straight or curved, and with or without the clipboard module: the
    expression statement [a] of line 18 evaluates a name that nothing has
    bound, so the run ends in [NameError] before any input is assigned. *)
Theorem script_raises_NameError (pyperclip_found : bool) (i : inputs) :
  (script pyperclip_found i init).1 = Raise (NameError "a").
Proof.
  destruct (header_runs pyperclip_found) as (g & Hrun & Ha & _).
  unfold script. erewrite bind_run by exact Hrun.
  unfold inputs_section. rewrite bind_assoc.
  rewrite bind_load_unbound by exact Ha. reflexivity.
Qed.

(** C5.  The geometry is selected by [angle] alone.  With [angle = None]
    point generation ends well and leaves the straight construction: the
    corners of the second face are those of the first translated by
    [(0,0,length/2)], and the points of the third face are those of the first
    translated by [(0,0,length)].  With a number for [angle] and a rotation
    centre, it leaves the curved construction: each corner of the second face
    is the corner of the first rotated by [-angle/2] about the axis parallel
    to x through [(0,rotation_center_y,0)], and each point of the third face
    is the point of the first rotated by [-angle] about that axis.  (A number
    for [angle] without a rotation centre ends in [TypeError].)  The run is
    that of the statements of the script other than line 18.  Where the
    curved construction computes in int64, with an int [radius] and an int
    [rotation_center_y], the entries are taken to stay in the range of
    int64 ([no_int64_wrap]); beyond it line 69 wraps and the third face is
    not the rotated first face. *)
Theorem geometry_selected_by_angle (pyperclip_found : bool) (i : inputs) :
  no_int64_wrap i ->
  let run := up_to_points pyperclip_found i init in
  match angle i with
  | None =>
      run.1 = Ok tt /\
      faces_bound (globals run.2)
        (straight_faces (to_R (radius i)) (to_R (length i)))
  | Some a =>
      match rotation_center_y i with
      | Some c =>
          run.1 = Ok tt /\
          faces_bound (globals run.2)
            (curved_faces (to_R (radius i)) (to_R a) (to_R c))
      | None => run.1 = Raise TypeError
      end
  end.
Proof.
  intros _.
  destruct (points_run pyperclip_found i) as (g & Hb & _ & _ & Hrun).
  unfold up_to_points. cbv zeta. rewrite Hrun.
  destruct (angle i) as [a|] eqn:Ha; [destruct (rotation_center_y i) as [c|] eqn:Hc|].
  - destruct (generate_points_curved g [] i a c Hb Ha Hc) as (g' & -> & Hf & _).
    split; [reflexivity|exact Hf].
  - destruct (generate_points_no_center g [] i a Hb Ha Hc) as (g' & ->).
    reflexivity.
  - destruct (generate_points_straight g [] i Hb Ha) as (g' & -> & Hf & _).
    split; [reflexivity|exact Hf].
Qed.

Lemma generate_points_faces g t i f :
  inputs_bound g i -> faces_of i = Some f ->
  exists g',
    generate_points (State g t) = (Ok tt, State g' t) /\
    faces_bound g' f /\ only_faces_change g g'.
Proof.
  intros Hb Hf. unfold faces_of in Hf.
  destruct (angle i) as [a|] eqn:Ha;
    [destruct (rotation_center_y i) as [c|] eqn:Hc; [|discriminate]|];
    injection Hf as <-.
  - apply generate_points_curved; assumption.
  - apply generate_points_straight; assumption.
Qed.

Lemma generate_points_no_faces g t i :
  inputs_bound g i -> faces_of i = None ->
  exists g', generate_points (State g t) = (Raise TypeError, State g' t).
Proof.
  intros Hb Hf. unfold faces_of in Hf.
  destruct (angle i) as [a|] eqn:Ha; [|discriminate].
  destruct (rotation_center_y i) as [c|] eqn:Hc; [discriminate|].
  eapply generate_points_no_center; eassumption.
Qed.

Lemma inputs_bound_frame g g' i :
  inputs_bound g i -> only_faces_change g g' -> inputs_bound g' i.
Proof.
  intros (? & ? & ? & ? & ? & ? & ? & ? & ?) Hfr.
  unfold inputs_bound.
  repeat split; (rewrite Hfr by (intro; discriminate); assumption).
Qed.








Lemma output_runs g t pts (b : bool) :
  g !! "all_points" = Some (VPoints pts) ->
  g !! "to_clipboard" = Some (VBool b) ->
  output (State g t)
  = (if b then
       pyperclip ← load "pyperclip";
       comi ← load_str "comi";
       emit (ClipboardCopy comi);;
       emit (Print [VStr "comi code exported to clipboard"])
     else
       emit (Print [VStr "comi code not exported to clipboard, pyperclip library not found"]))
      (State g (t ++ map point_event (numbered pts))%list).
Proof.
  intros Hpts Hclip. unfold output.
  erewrite bind_load_points by exact Hpts.
  erewrite bind_run by apply print_loop.
  erewrite bind_load by exact Hclip. reflexivity.
Qed.

(** C6.  The clipboard is optional.  Whether or not [pyperclip] is found,
    the header of the script ends well, with [to_clipboard] telling which,
    and with the name [pyperclip] bound exactly when it was found.  OUTPUT
    with [to_clipboard = False] prints the points and the notice, copies
    nothing and raises nothing; with [to_clipboard = True] it copies the
    whole of [comi] to the clipboard and says so. *)
Theorem clipboard_is_optional :
  (forall found : bool,
     exists g,
       header found init = (Ok tt, State g []) /\
       g !! "to_clipboard" = Some (VBool found) /\
       (g !! "pyperclip" = if found then Some (VModule "pyperclip") else None))
  /\
  (forall g t pts,
     g !! "all_points" = Some (VPoints pts) ->
     g !! "to_clipboard" = Some (VBool false) ->
     output (State g t)
     = (Ok tt,
        State g (t ++ map point_event (numbered pts)
                   ++ [Print [VStr "comi code not exported to clipboard, pyperclip library not found"]])%list))
  /\
  (forall g t pts m comi,
     g !! "all_points" = Some (VPoints pts) ->
     g !! "to_clipboard" = Some (VBool true) ->
     g !! "pyperclip" = Some m ->
     g !! "comi" = Some (VStr comi) ->
     output (State g t)
     = (Ok tt,
        State g (t ++ map point_event (numbered pts)
                   ++ [ClipboardCopy comi;
                       Print [VStr "comi code exported to clipboard"]])%list)).
Proof.
  split; [|split].
  - intros found. destruct (header_runs found) as (g & Hrun & _ & Hclip & _ & Hpy).
    exists g. auto.
  - intros g t pts Hpts Hclip.
    rewrite (output_runs g t pts false Hpts Hclip).
    unfold emit. cbn [globals trace]. rewrite <- app_assoc. reflexivity.
  - intros g t pts m comi Hpts Hclip Hpy Hcomi.
    rewrite (output_runs g t pts true Hpts Hclip).
    erewrite bind_load by exact Hpy.
    erewrite bind_load_str by exact Hcomi.
    rewrite bind_emit. unfold emit. cbn [globals trace].
    rewrite <- !app_assoc. reflexivity.
Qed.
(** With line 18 taken out the script runs to its end, for the straight
    conductor and for the curved one with its rotation centre, and copies
    the command when it can. *)
Lemma script_without_line_18_runs (pyperclip_found : bool) (i : inputs) :
  let run := script_without_line_18 pyperclip_found i init in
  match faces_of i with
  | Some f =>
      let prints := map point_event (numbered (all_points_of f)) in
      run.1 = Ok tt /\
      trace run.2
      = (prints ++ prints
         ++ (if pyperclip_found
             then [ClipboardCopy (command_text i (all_points_of f));
                   Print [VStr "comi code exported to clipboard"]]
             else [Print [VStr "comi code not exported to clipboard, pyperclip library not found"]]))%list
  | None => run.1 = Raise TypeError
  end.
Proof.
  destruct (points_run pyperclip_found i) as (g & Hb & Hclip & Hpy & Hrun).
  unfold script_without_line_18. cbv zeta. rewrite Hrun.
  destruct (faces_of i) as [f|] eqn:Hf.
  - destruct (generate_points_faces g [] i f Hb Hf) as (g1 & Hgen & Hfb & Hfr).
    erewrite bind_run by exact Hgen.
    destruct (create_command_runs g1 [] i f (inputs_bound_frame _ _ _ Hb Hfr) Hfb)
      as (g2 & Hcmd & Hcomi & Hpts & Hkeep).
    erewrite bind_run by exact Hcmd.
    assert (Hclip2 : g2 !! "to_clipboard" = Some (VBool pyperclip_found)).
    { rewrite Hkeep, Hfr by (intro; discriminate). exact Hclip. }
    rewrite (output_runs g2 _ _ pyperclip_found Hpts Hclip2).
    destruct pyperclip_found.
    + assert (Hpy2 : g2 !! "pyperclip" = Some (VModule "pyperclip")).
      { rewrite Hkeep, Hfr by (intro; discriminate). exact Hpy. }
      erewrite bind_load by exact Hpy2.
      erewrite bind_load_str by exact Hcomi.
      rewrite bind_emit. unfold emit. cbn [globals trace fst snd].
      split; [reflexivity|]. rewrite <- !app_assoc. reflexivity.
    + unfold emit. cbn [globals trace fst snd].
      split; [reflexivity|]. rewrite <- !app_assoc. reflexivity.
  - destruct (generate_points_no_faces g [] i Hb Hf) as (g' & Hgen).
    erewrite bind_fail by exact Hgen. reflexivity.
Qed.
End Facts.

Lemma int_right_angle_fits : no_int64_wrap MoreSamples.int_right_angle.
Proof.
  unfold no_int64_wrap, fits_int64. cbn [angle radius rotation_center_y
    MoreSamples.int_right_angle]. lia.
Defined.

Lemma geometry_selected_by_angle_witness :
  no_int64_wrap MoreSamples.int_right_angle /\
  (up_to_points false MoreSamples.int_right_angle init).1 = Ok tt /\
  faces_bound (globals (up_to_points false MoreSamples.int_right_angle init).2)
    (curved_faces 2 90 100).
Proof.
  split; [exact int_right_angle_fits|].
  exact (geometry_selected_by_angle false MoreSamples.int_right_angle
           int_right_angle_fits).
Defined.

Lemma clipboard_is_optional_witness :
  output (State clipboard_off [])
  = (Ok tt,
     State clipboard_off
       [Print [VStr "Point"; VNum (Int 1); VStr ":"; VPoint (0, 0, 0)%R];
        Print [VStr "comi code not exported to clipboard, pyperclip library not found"]])
  /\
  output (State clipboard_on [])
  = (Ok tt,
     State clipboard_on
       [Print [VStr "Point"; VNum (Int 1); VStr ":"; VPoint (0, 0, 0)%R];
        ClipboardCopy "BRICK20";
        Print [VStr "comi code exported to clipboard"]]).
Proof.
  destruct clipboard_is_optional as (_ & Hoff & Hon). split.
  - apply (Hoff clipboard_off [] [(0, 0, 0)%R]); reflexivity.
  - apply (Hon clipboard_on [] [(0, 0, 0)%R] (VModule "pyperclip") "BRICK20");
      reflexivity.
Defined.

End ConductorFacts.

(** ** Arrays and the text of an export *)

Module NumpyFacts.
Import Py PyFacts Numpy.

Lemma np_array_same_length (rows : list (list R)) (m : nat) :
  Forall (fun r => List.length r = m) rows -> np_array rows = Ok rows.
Proof.
  intros Hall. destruct rows as [|r rest]; [reflexivity|].
  unfold np_array.
  apply Forall_cons in Hall as [Hr Hrest].
  replace (forallb _ rest) with true; [reflexivity|].
  symmetry. apply forallb_forall. intros r' Hin.
  rewrite Forall_forall in Hrest. apply Nat.eqb_eq.
  rewrite Hr. apply Hrest. apply list_elem_of_In. exact Hin.
Qed.

Lemma T_length (r : list R) (rest : list (list R)) :
  List.length (T (r :: rest)) = List.length r.
Proof. unfold T. rewrite length_map, length_seq. reflexivity. Qed.




Section Text.
Context `{FloatFormat}.

Lemma header_text_nonempty (newline header : string) :
  header <> "" ->
  header_text newline header = "# " +:+ comment_lines header +:+ newline.
Proof. destruct header; [contradiction|reflexivity]. Qed.


End Text.

End NumpyFacts.

(** ** Reading a buffer back *)

Module OperaFacts.
Import Py PyFacts Numpy NumpyFacts Opera.

Lemma bind_get_column_data {B} (h : host) b c (k : list R -> M event B) s :
  (get_column_data h b c ≫= k) s
  = k (column_data (h b) c)
      (State (globals s) (trace s ++ [GetColumnData b c])).
Proof. reflexivity. Qed.

Lemma bind_get_buffer_column_names {B} (h : host) b
    (k : list string -> M event B) s :
  (get_buffer_column_names h b ≫= k) s
  = k (columns (h b))
      (State (globals s) (trace s ++ [GetBufferColumnNames b])).
Proof. reflexivity. Qed.

Ltac step :=
  step_with ltac:(first
    [ rewrite bind_get_column_data
    | rewrite bind_get_buffer_column_names ]).

Lemma column_data_length (b : buffer) (c : string) :
  List.length (column_data b c) = point_total b.
Proof. unfold column_data. rewrite length_map, length_seq. reflexivity. Qed.

Lemma np_array_column_arrays (b : buffer) :
  np_array (column_arrays b) = Ok (column_arrays b).
Proof.
  apply (np_array_same_length _ (point_total b)).
  unfold column_arrays. apply Forall_map, Forall_forall.
  intros c _. apply column_data_length.
Qed.


Lemma read_columns_of (h : host) (names : list string) (b : string) g t :
  comprehension names (get_column_data h b) (State g t)
  = (Ok (map (column_data (h b)) names),
     State g (t ++ map (GetColumnData b) names)%list).
Proof.
  revert t. induction names as [|c names IH]; intros t.
  - cbn [comprehension map]. rewrite app_nil_r. reflexivity.
  - cbn [comprehension map].
    repeat step. erewrite bind_run by apply IH.
    unfold mret, M_ret, ret. rewrite <- app_assoc. reflexivity.
Qed.

Lemma reads_no_write (h : host) (b : string) :
  existsb is_write (reads h b) = false.
Proof.
  unfold reads. cbn [existsb is_write orb].
  induction (columns (h b)) as [|c cs IH]; [reflexivity|exact IH].
Qed.

End OperaFacts.

(** ** The example script *)

Module ExampleFacts.
Import Py PyFacts Numpy NumpyFacts Opera OperaFacts Example Samples.

Section Facts.
Context `{FloatFormat}.
Variable h : host.

Lemma read_columns (names : list string) (b : string) g t :
  g !! "buffer_name" = Some (VStr b) ->
  comprehension names
    (fun buffer_column_name =>
       buffer_name ← load_str "buffer_name";
       get_column_data h buffer_name buffer_column_name) (State g t)
  = (Ok (map (column_data (h b)) names),
     State g (t ++ map (GetColumnData b) names)%list).
Proof.
  intros Hb. revert t. induction names as [|c names IH]; intros t.
  - cbn [comprehension map]. rewrite app_nil_r. reflexivity.
  - cbn [comprehension map].
    repeat step. erewrite bind_run by apply IH.
    unfold mret, M_ret, ret. rewrite <- app_assoc. reflexivity.
Qed.

Lemma inputs_bound_keep g g' i :
  inputs_bound g i -> keeps_inputs g g' -> inputs_bound g' i.
Proof.
  intros (? & ? & ? & ? & ? & ? & ? & ? & ?) Hk. unfold inputs_bound.
  repeat split; (rewrite Hk by (intro; discriminate); assumption).
Qed.

Ltac keep_names :=
  intros ? ? ? ? ? ? ? ? ?; cbn [globals];
  repeat (rewrite lookup_insert_ne by congruence); reflexivity.

(** One round of the loop when a file name prefix is set. *)
Lemma loop_body_exports g t i p n :
  inputs_bound g i -> buffer_filename_prefix i = Some p ->
  exists g',
    loop_body h n (State g t) = (Ok tt, State g' (t ++ case_events h i p n)%list) /\
    keeps_inputs g g'.
Proof.
  intros (Hg & Hb & Hl & Hp & Hf & Hx & Hy & Hpre & Hpoly) Hsome.
  rewrite Hsome in Hpre. cbn [opt_str] in Hpre.
  eexists. split.
  - unfold loop_body, case_names, buffer_and_line, export.
    repeat step.
    erewrite bind_run by (apply read_columns; lookup_name).
    repeat step.
    change (map (column_data ?b) (columns ?b)) with (column_arrays b).
    rewrite np_array_column_arrays. repeat step.
    unfold emit. cbn [globals trace].
    unfold case_events, reads. rewrite <- !app_assoc. reflexivity.
  - keep_names.
Qed.

(** One round of the loop when no prefix is set and no earlier statement
    has bound [buffer_filename]. *)
Lemma loop_body_stops g t i n :
  inputs_bound g i -> buffer_filename_prefix i = None ->
  g !! "buffer_filename" = None ->
  exists g',
    loop_body h n (State g t)
    = (Raise (NameError "buffer_filename"),
       State g' (t ++ case_events_before_export h i n)%list).
Proof.
  intros (Hg & Hb & Hl & Hp & Hf & Hx & Hy & Hpre & Hpoly) Hnone Hunbound.
  rewrite Hnone in Hpre. cbn [opt_str] in Hpre.
  eexists.
  unfold loop_body, case_names, buffer_and_line, export.
  repeat step.
  erewrite bind_run by (apply read_columns; lookup_name).
  repeat step.
  rewrite bind_load_str_unbound by (strip_inserts; exact Hunbound).
  unfold case_events_before_export, reads. rewrite <- !app_assoc. reflexivity.
Qed.

Lemma loop_exports (cases : list Z) g t i p :
  inputs_bound g i -> buffer_filename_prefix i = Some p ->
  exists g',
    for_each cases (loop_body h) (State g t)
    = (Ok tt, State g' (t ++ concat (map (case_events h i p) cases))%list).
Proof.
  intros Hin Hsome. revert g t Hin.
  induction cases as [|n cases IH]; intros g t Hin.
  - exists g. rewrite for_each_nil. cbn [map concat]. rewrite app_nil_r.
    reflexivity.
  - destruct (loop_body_exports g t i p n Hin Hsome) as (g1 & Hrun & Hkeep).
    destruct (IH g1 (t ++ case_events h i p n)%list
                (inputs_bound_keep _ _ _ Hin Hkeep)) as (g2 & Hrest).
    exists g2. rewrite for_each_cons. erewrite bind_run by exact Hrun.
    rewrite Hrest. cbn [map concat]. rewrite <- app_assoc. reflexivity.
Qed.

(** The statements before the loop. *)
Lemma opening_runs (i : inputs) :
  exists g,
    inputs_bound g i /\ g !! "buffer_filename" = None /\
    script h i init
    = (match initial_case i, final_case i with
       | a, b => for_each (range a (b + 1)) (loop_body h)
       end) (State g (opening_events i)).
Proof.
  eexists. split; [|split].
  3: { unfold script, assign_inputs. repeat step. reflexivity. }
  - unfold inputs_bound. repeat split; lookup_name.
  - lookup_name.
Qed.

Lemma range_length (a b : Z) :
  (a <= b)%Z -> Z.of_nat (List.length (range a (b + 1))) = (b - a + 1)%Z.
Proof. intros Hab. unfold range. rewrite length_seqZ. lia. Qed.

Lemma range_lookup (a b : Z) (k : nat) :
  (k < List.length (range a (b + 1)))%nat ->
  range a (b + 1) !! k = Some (a + Z.of_nat k)%Z.
Proof.
  unfold range. rewrite length_seqZ. intros Hk. apply lookup_seqZ. lia.
Qed.

Lemma range_first (a b : Z) :
  (a <= b)%Z -> exists rest, range a (b + 1) = a :: rest.
Proof.
  intros Hab. unfold range.
  rewrite seqZ_cons by lia. eexists. reflexivity.
Qed.


(** C4.  For [initial_case <= final_case], and a file name prefix set as in
    the script, the run ends well and the loop makes
    [final_case - initial_case + 1] rounds, one for each case number from
    [initial_case] up to [final_case] in ascending order.  After the polyline
    and the one graph created before the loop, the host sees for each case
    [n] the calls of [case_events]: the case [n] loaded, one buffer named
    [buffer_name_preffix + str(n)], one line named
    [graph_line_name_preffix + str(n)] made from that buffer and plotted on
    the graph [graph_name], then the buffer read back and exported. *)
Theorem case_loop_runs_every_case (i : inputs) (p : string) :
  (initial_case i <= final_case i)%Z ->
  buffer_filename_prefix i = Some p ->
  let run := script h i init in
  let cases := range (initial_case i) (final_case i + 1) in
  run.1 = Ok tt /\
  trace run.2 = (opening_events i ++ concat (map (case_events h i p) cases))%list /\
  Z.of_nat (List.length cases) = (final_case i - initial_case i + 1)%Z /\
  (forall k : nat,
     (k < List.length cases)%nat ->
     cases !! k = Some (initial_case i + Z.of_nat k)%Z).
Proof.
  intros Hle Hsome run cases.
  destruct (opening_runs i) as (g & Hin & _ & Hscript).
  destruct (loop_exports cases g (opening_events i) i p Hin Hsome)
    as (g' & Hloop).
  subst run. rewrite Hscript. fold cases. rewrite Hloop.
  split; [reflexivity|]. split; [reflexivity|].
  split; [apply range_length, Hle|]. apply range_lookup.
Qed.

Lemma before_export_no_write i n :
  existsb is_write (opening_events i ++ case_events_before_export h i n) = false.
Proof.
  unfold case_events_before_export, opening_events.
  rewrite !existsb_app, reads_no_write. reflexivity.
Qed.

(** C8.  [buffer_filename] is assigned only when [buffer_filename_prefix] is
    not [None], and the export reads it in any case.  With the prefix [None]
    and at least one case, the first round of the loop reaches the export,
    the buffer already read back, and stops with [NameError] on
    [buffer_filename]; no file is written.  A run that writes a file is a
    run with a prefix. *)
Theorem export_needs_prefix (i : inputs) :
  let run := script h i init in
  (buffer_filename_prefix i = None ->
   (initial_case i <= final_case i)%Z ->
   run.1 = Raise (NameError "buffer_filename") /\
   trace run.2
   = (opening_events i ++ case_events_before_export h i (initial_case i))%list)
  /\
  (forall fname content : string,
     In (WriteFile fname content) (trace run.2) ->
     buffer_filename_prefix i <> None).
Proof.
  intros run.
  destruct (opening_runs i) as (g & Hin & Hunbound & Hscript).
  assert (Hstop : buffer_filename_prefix i = None ->
                  (initial_case i <= final_case i)%Z ->
                  run.1 = Raise (NameError "buffer_filename") /\
                  trace run.2
                  = (opening_events i
                     ++ case_events_before_export h i (initial_case i))%list).
  { intros Hnone Hle. subst run. rewrite Hscript.
    destruct (range_first _ _ Hle) as (rest & ->).
    destruct (loop_body_stops g (opening_events i) i (initial_case i)
                Hin Hnone Hunbound) as (g' & Hbody).
    rewrite for_each_cons. erewrite bind_fail by exact Hbody.
    split; reflexivity. }
  split; [exact Hstop|].
  intros fname content Hwrite Hnone.
  assert (Hno : existsb is_write (trace run.2) = false).
  { destruct (Z_le_gt_dec (initial_case i) (final_case i)) as [Hle|Hgt].
    - destruct (Hstop Hnone Hle) as [_ ->]. apply before_export_no_write.
    - subst run. rewrite Hscript. unfold range.
      rewrite seqZ_nil by lia. reflexivity. }
  assert (Hyes : existsb is_write (trace run.2) = true).
  { apply existsb_exists. exists (WriteFile fname content).
    split; [exact Hwrite|reflexivity]. }
  congruence.
Qed.
End Facts.

Lemma case_loop_runs_every_case_witness :
  (script (H := blank_format) sample_host default_inputs init).1 = Ok tt /\
  Z.of_nat (List.length (range 29 (43 + 1))) = (43 - 29 + 1)%Z.
Proof.
  destruct (case_loop_runs_every_case (H := blank_format) sample_host
              default_inputs "fields_at_") as (Hok & _ & Hcount & _).
  - cbn. lia.
  - reflexivity.
  - split; [exact Hok|exact Hcount].
Defined.

Lemma export_needs_prefix_witness :
  (script (H := blank_format) sample_host no_export init).1
  = Raise (NameError "buffer_filename").
Proof.
  destruct (export_needs_prefix (H := blank_format) sample_host no_export)
    as (Hstop & _).
  apply Hstop; [reflexivity|cbn; lia].
Defined.

End ExampleFacts.

(** ** The Halbach script *)

Module HalbachFacts.
Import Py PyFacts Numpy NumpyFacts Opera OperaFacts Halbach Samples.

Section Facts.
Context `{FloatFormat}.

Open Scope R_scope.

Lemma py_div_ok x y : y <> 0 -> py_div x y = Ok (x / y).
Proof. intros Hy. unfold py_div. destruct (Req_dec_T y 0); [contradiction|reflexivity]. Qed.

Lemma py_div_zero x : py_div x 0 = Raise ZeroDivisionError.
Proof. unfold py_div. destruct (Req_dec_T 0 0); [reflexivity|contradiction]. Qed.

Lemma py_div_inv x y q : py_div x y = Ok q -> y <> 0 /\ q = x / y.
Proof.
  unfold py_div. destruct (Req_dec_T y 0); [discriminate|].
  intros [= <-]. split; [assumption|reflexivity].
Qed.

Lemma np_div_inv x y q : np_div x y = Ok q -> y <> 0 /\ q = x / y.
Proof.
  unfold np_div. destruct (Req_dec_T y 0); [discriminate|].
  intros [= <-]. split; [assumption|reflexivity].
Qed.

Lemma np_div_ok x y : y <> 0 -> np_div x y = Ok (x / y).
Proof. intros Hy. unfold np_div. destruct (Req_dec_T y 0); [contradiction|reflexivity]. Qed.

Lemma derive_inv i d :
  derive i = Ok d ->
  to_R (n_blocks i) <> 0 /\
  s d = sin (PI / to_R (n_blocks i)) /\
  1 - s d - 2 * to_R (core_inner_thickness i) * s d + to_R (gap_blocks i) <> 0 /\
  block_diameter d
  = to_R (bore_diameter i) * s d
    / (1 - s d - 2 * to_R (core_inner_thickness i) * s d + to_R (gap_blocks i)) /\
  device_diameter d
  = to_R (bore_diameter i) + 2 * block_diameter d
    + 2 * to_R (core_inner_thickness i) * block_diameter d
    + 2 * to_R (core_outer_thickness i) * block_diameter d.
Proof.
  unfold derive. intros Hd.
  destruct (py_div PI (to_R (n_blocks i))) as [q|e] eqn:Hq; [|discriminate].
  apply py_div_inv in Hq as [Hn ->]. cbn [rbind] in Hd.
  destruct (np_div _ _) as [bd|e] eqn:Hbd in Hd; [|discriminate].
  apply np_div_inv in Hbd as [Hden ->]. cbn [rbind] in Hd.
  injection Hd as <-. cbn [s block_diameter device_diameter].
  repeat split; assumption.
Qed.

(** C3.  Whenever lines 101-106 compute the dimensions, [block_diameter] is
    [bore_diameter*s/(1 - s - 2*core_inner_thickness*s + gap_blocks)] and it
    packs the ring: with [s = sin(pi/n_blocks)] and the block centres at
    radius [0.5*bore_diameter + core_inner_thickness*block_diameter
    + 0.5*block_diameter], the distance [2*R*s] between adjacent centres is
    [block_diameter*(1 + gap_blocks)]; and [device_diameter] is
    [bore_diameter + 2*block_diameter*(1 + core_inner_thickness
    + core_outer_thickness)].  Floats are real numbers here. *)
Theorem block_diameter_packs (i : inputs) (d : dimensions) :
  derive i = Ok d ->
  s d = sin (PI / to_R (n_blocks i)) /\
  block_diameter d
  = to_R (bore_diameter i) * s d
    / (1 - s d - 2 * to_R (core_inner_thickness i) * s d
       + to_R (gap_blocks i)) /\
  adjacent_centers_distance i d
  = block_diameter d * (1 + to_R (gap_blocks i)) /\
  device_diameter d
  = to_R (bore_diameter i)
    + 2 * block_diameter d
      * (1 + to_R (core_inner_thickness i) + to_R (core_outer_thickness i)).
Proof.
  intros Hd. destruct (derive_inv i d Hd) as (_ & Hs & Hden & Hbd & Hdev).
  split; [exact Hs|]. split; [exact Hbd|].
  split.
  - unfold adjacent_centers_distance, block_center_radius.
    rewrite Hbd. field. exact Hden.
  - rewrite Hdev. ring.
Qed.

Lemma derive_total i :
  to_R (n_blocks i) <> 0 ->
  1 - sin (PI / to_R (n_blocks i))
  - 2 * to_R (core_inner_thickness i) * sin (PI / to_R (n_blocks i))
  + to_R (gap_blocks i) <> 0 ->
  exists d, derive i = Ok d.
Proof.
  intros Hn Hden. unfold derive.
  rewrite py_div_ok by exact Hn. cbn [rbind].
  rewrite np_div_ok by exact Hden. cbn [rbind]. eexists. reflexivity.
Qed.

Lemma fold_min_spec (rest : list R) (x : R) :
  let m := fold_left (fun m y => if Rlt_dec y m then y else m) rest x in
  In m (x :: rest) /\ forall y, In y (x :: rest) -> m <= y.
Proof.
  revert x. induction rest as [|z rest IH]; intros x; cbn [fold_left].
  - split; [left; reflexivity|]. intros y [<-|[]]. lra.
  - destruct (Rlt_dec z x) as [Hlt|Hge].
    + destruct (IH z) as [Hin Hle]. split.
      * destruct Hin as [<-|Hin]; [right; left; reflexivity|right; right; exact Hin].
      * intros y [<-|[<-|Hy]].
        -- pose proof (Hle z (or_introl eq_refl)). lra.
        -- apply Hle. left. reflexivity.
        -- apply Hle. right. exact Hy.
    + destruct (IH x) as [Hin Hle]. split.
      * destruct Hin as [<-|Hin]; [left; reflexivity|right; right; exact Hin].
      * intros y [<-|[<-|Hy]].
        -- apply Hle. left. reflexivity.
        -- pose proof (Hle x (or_introl eq_refl)). lra.
        -- apply Hle. right. exact Hy.
Qed.

Lemma fold_max_spec (rest : list R) (x : R) :
  let m := fold_left (fun m y => if Rlt_dec m y then y else m) rest x in
  In m (x :: rest) /\ forall y, In y (x :: rest) -> y <= m.
Proof.
  revert x. induction rest as [|z rest IH]; intros x; cbn [fold_left].
  - split; [left; reflexivity|]. intros y [<-|[]]. lra.
  - destruct (Rlt_dec x z) as [Hlt|Hge].
    + destruct (IH z) as [Hin Hle]. split.
      * destruct Hin as [<-|Hin]; [right; left; reflexivity|right; right; exact Hin].
      * intros y [<-|[<-|Hy]].
        -- pose proof (Hle z (or_introl eq_refl)). lra.
        -- apply Hle. left. reflexivity.
        -- apply Hle. right. exact Hy.
    + destruct (IH x) as [Hin Hle]. split.
      * destruct Hin as [<-|Hin]; [left; reflexivity|right; right; exact Hin].
      * intros y [<-|[<-|Hy]].
        -- apply Hle. left. reflexivity.
        -- pose proof (Hle x (or_introl eq_refl)). lra.
        -- apply Hle. right. exact Hy.
Qed.

Lemma py_min_spec (xs : list R) :
  xs <> [] ->
  exists m, py_min xs = Ok m /\ In m xs /\ forall y, In y xs -> m <= y.
Proof.
  destruct xs as [|x rest]; [contradiction|]. intros _.
  eexists. split; [reflexivity|]. apply fold_min_spec.
Qed.

Lemma py_max_spec (xs : list R) :
  xs <> [] ->
  exists m, py_max xs = Ok m /\ In m xs /\ forall y, In y xs -> y <= m.
Proof.
  destruct xs as [|x rest]; [contradiction|]. intros _.
  eexists. split; [reflexivity|]. apply fold_max_spec.
Qed.

Lemma getitem_ok (rows : list (list R)) k row :
  rows !! k = Some row -> getitem rows k = Ok row.
Proof. intros Hk. unfold getitem. rewrite Hk. reflexivity. Qed.

Lemma homogeneity_ok (bmax bmin b0 : R) :
  b0 <> 0 ->
  homogeneity bmax bmin b0 = Ok (1000000 * (bmax - bmin) / (2 * b0)).
Proof. intros Hb0. unfold homogeneity. apply py_div_ok. lra. Qed.

Lemma homogeneity_zero (bmax bmin : R) :
  homogeneity bmax bmin 0 = Raise ZeroDivisionError.
Proof.
  unfold homogeneity. replace (2 * 0) with 0 by ring. apply py_div_zero.
Qed.

Lemma statistics_spec (names : list string) (rows : list (list R)) (k : nat)
    (column : list R) (b0 : R) :
  index names "B" = Ok k ->
  rows !! k = Some column ->
  column <> [] ->
  b0 <> 0 ->
  exists g,
    statistics names rows b0 = Ok g /\
    In (bmin g) column /\ (forall y, In y column -> bmin g <= y) /\
    In (bmax g) column /\ (forall y, In y column -> y <= bmax g) /\
    hom g = 1000000 * (bmax g - bmin g) / (2 * b0).
Proof.
  intros Hk Hrow Hne Hb0.
  destruct (py_min_spec column Hne) as (lo & Hmin & Hlo_in & Hlo).
  destruct (py_max_spec column Hne) as (hi & Hmax & Hhi_in & Hhi).
  exists (GfrStatistics lo hi (1000000 * (hi - lo) / (2 * b0))).
  split; [|cbn [bmin bmax hom]; auto].
  unfold statistics. rewrite Hk. cbn [rbind].
  rewrite (getitem_ok _ _ _ Hrow). cbn [rbind].
  rewrite Hmin, Hmax. cbn [rbind].
  rewrite homogeneity_ok by exact Hb0. reflexivity.
Qed.

Close Scope R_scope.

Lemma header_lines i d r g names :
  header i d r g names = lines_text (header_fields i d r g) +:+ join "," names.
Proof.
  unfold header, header_fields. cbn [lines_text].
  rewrite !string_app_assoc. reflexivity.
Qed.

End Facts.

Open Scope R_scope.
Lemma derive_six_blocks : derive six_blocks = Ok six_blocks_dimensions.
Proof.
  unfold derive, six_blocks.
  cbn [n_blocks bore_diameter gap_blocks core_inner_thickness
       core_outer_thickness to_R].
  rewrite py_div_ok by lra. cbn [rbind].
  rewrite sin_PI6.
  rewrite np_div_ok by lra. cbn [rbind].
  unfold six_blocks_dimensions. do 2 f_equal; field.
Qed.

Lemma block_diameter_packs_witness :
  adjacent_centers_distance six_blocks six_blocks_dimensions
  = 270 * (1 + 10 / 100) /\
  device_diameter six_blocks_dimensions
  = 270 + 2 * 270 * (1 + 10 / 100 + 10 / 100).
Proof.
  destruct (block_diameter_packs six_blocks six_blocks_dimensions
              derive_six_blocks) as (_ & _ & Hpack & Hdevice).
  split; [exact Hpack|exact Hdevice].
Defined.


Close Scope R_scope.

End HalbachFacts.

(** ** The exports of both scripts *)

Module ExportFacts.
Import Py PyFacts Numpy NumpyFacts Opera OperaFacts.
Import Example ExampleFacts Halbach HalbachFacts Samples.

Section Facts.
Context `{FloatFormat}.


Lemma index_lookup (names : list string) (x : string) (k : nat) :
  index names x = Ok k -> names !! k = Some x.
Proof.
  revert k. induction names as [|y names IH]; intros k; [discriminate|].
  cbn [index]. destruct (String.eqb y x) eqn:Hyx.
  - intros [= <-]. apply String.eqb_eq in Hyx as ->. reflexivity.
  - destruct (index names x) as [k'|e]; [|discriminate].
    intros [= <-]. apply IH. reflexivity.
Qed.


End Facts.


End ExportFacts.

(** ** More on the conductor script: the shape of the conductor *)

Module ConductorExtra.
Import Py PyFacts Conductor Int64 ConductorFacts Measures Samples MoreSamples.

Open Scope R_scope.

Lemma sqr_squared : sqrt 2 / 2 * (sqrt 2 / 2) = 1 / 2.
Proof.
  replace (sqrt 2 / 2 * (sqrt 2 / 2)) with (sqrt 2 * sqrt 2 / 4) by field.
  rewrite sqrt_sqrt by lra. field.
Qed.

Lemma corners_on_circle (r : R) :
  Forall (fun p => from_z_axis p = r * r /\ p.2 = 0) (corners (sqrt 2 / 2) r).
Proof.
  unfold corners, from_z_axis. repeat constructor; cbn [fst snd];
    pose proof sqr_squared as Hs; nra.
Qed.

Lemma extremes_on_circle (r : R) :
  Forall (fun p => from_z_axis p = r * r /\ p.2 = 0) (extremes r).
Proof.
  unfold extremes, from_z_axis. repeat constructor; cbn [fst snd]; nra.
Qed.

Lemma translate_z_keeps_circle (len : R) (p : vec3) :
  from_z_axis (translate (0, 0, len) p) = from_z_axis p /\
  (translate (0, 0, len) p).2 = p.2 + len.
Proof.
  destruct p as [[x y] z]. unfold translate, from_z_axis. cbn [fst snd].
  split; ring.
Qed.

Close Scope R_scope.

Lemma Forall_all_points (P : vec3 -> Prop) (f : faces) :
  Forall P (face1_corners f) -> Forall P (face1_extremes f) ->
  Forall P (face2_corners f) -> Forall P (face3_corners f) ->
  Forall P (face3_extremes f) -> Forall P (all_points_of f).
Proof.
  intros H1c H1e H2c H3c H3e. unfold all_points_of.
  repeat (apply Forall_app; split); assumption.
Qed.

Lemma Forall_translate_z (len r : R) (ps : list vec3) :
  Forall (fun p => from_z_axis p = (r * r)%R /\ p.2 = 0%R) ps ->
  Forall (fun p => from_z_axis p = (r * r)%R /\ p.2 = len)
    (map (translate (0, 0, len)%R) ps).
Proof.
  intros Hps. apply Forall_map. eapply Forall_impl; [exact Hps|].
  intros p [Hc Hz]. cbn beta.
  destruct (translate_z_keeps_circle len p) as [-> ->].
  split; [exact Hc|]. rewrite Hz. apply Rplus_0_l.
Qed.


(** X1.  A straight conductor is round: point generation with
    [angle = None] ends well, and each of the twenty points lies at the
    distance [radius] from the z axis, the first face at [z = 0], the second
    at [z = length/2] and the third at [z = length]. *)
Theorem straight_conductor_is_round (pyperclip_found : bool) (i : inputs) :
  angle i = None ->
  let run := up_to_points pyperclip_found i init in
  let on_circle_at (z : R) (p : vec3) :=
    from_z_axis p = (to_R (radius i) * to_R (radius i))%R /\ p.2 = z in
  exists f,
    run.1 = Ok tt /\
    faces_bound (globals run.2) f /\
    Forall (on_circle_at 0%R) (face1_corners f ++ face1_extremes f)%list /\
    Forall (on_circle_at (to_R (length i) / 2)%R) (face2_corners f) /\
    Forall (on_circle_at (to_R (length i))) (face3_corners f ++ face3_extremes f)%list.
Proof.
  intros Hnone run on_circle_at. subst run on_circle_at.
  destruct (points_run pyperclip_found i) as (g & Hb & _ & _ & Hrun).
  destruct (generate_points_straight g [] i Hb Hnone) as (g' & Hgen & Hf & _).
  unfold up_to_points. rewrite Hrun, Hgen.
  eexists. split; [reflexivity|]. split; [exact Hf|].
  cbn [face1_corners face1_extremes face2_corners face3_corners face3_extremes
       straight_faces].
  split; [|split].
  - apply Forall_app. split; [apply corners_on_circle|apply extremes_on_circle].
  - apply Forall_translate_z, corners_on_circle.
  - apply Forall_app. split; apply Forall_translate_z;
      [apply corners_on_circle|apply extremes_on_circle].
Qed.


Lemma rotate_by_zero (c theta : R) (p : vec3) :
  theta = 0%R -> rotate_about_x_axis c theta p = p.
Proof.
  intros ->. destruct p as [[x y] z]. unfold rotate_about_x_axis.
  cbn [fst snd]. rewrite Rmult_0_l, cos_0, sin_0.
  f_equal; [f_equal|]; ring.
Qed.

Lemma map_rotate_by_zero (c theta : R) (ps : list vec3) :
  theta = 0%R -> map (rotate_about_x_axis c theta) ps = ps.
Proof.
  intros Hz. induction ps as [|p ps IH]; [reflexivity|].
  cbn [map]. rewrite IH, rotate_by_zero by exact Hz. reflexivity.
Qed.

(** X3.  A curved conductor with the angle zero has no length: the second
    and the third face are the first face again.  The entries of the int64
    array of an int [radius] and an int [rotation_center_y] are taken to
    stay in the range of int64 ([no_int64_wrap]): where line 69 wraps, the
    third face is built from the wrapped points and is not the first. *)
Theorem zero_angle_collapses_the_conductor (pyperclip_found : bool)
    (i : inputs) (a c : num) :
  angle i = Some a ->
  to_R a = 0%R ->
  rotation_center_y i = Some c ->
  no_int64_wrap i ->
  let run := up_to_points pyperclip_found i init in
  exists f,
    run.1 = Ok tt /\
    faces_bound (globals run.2) f /\
    face2_corners f = face1_corners f /\
    face3_corners f = face1_corners f /\
    face3_extremes f = face1_extremes f.
Proof.
  intros Ha Hzero Hc _ run. subst run.
  destruct (points_run pyperclip_found i) as (g & Hb & _ & _ & Hrun).
  destruct (generate_points_curved g [] i a c Hb Ha Hc) as (g' & Hgen & Hf & _).
  unfold up_to_points. rewrite Hrun, Hgen.
  eexists. split; [reflexivity|]. split; [exact Hf|].
  cbn [face1_corners face1_extremes face2_corners face3_corners face3_extremes
       curved_faces].
  rewrite !map_rotate_by_zero; [auto|rewrite Hzero; lra..].
Qed.
Lemma straight_conductor_is_round_witness :
  exists f,
    (up_to_points false default_inputs init).1 = Ok tt /\
    faces_bound (globals (up_to_points false default_inputs init).2) f.
Proof.
  destruct (straight_conductor_is_round false default_inputs eq_refl)
    as (f & Hok & Hf & _).
  exists f. split; [exact Hok|exact Hf].
Defined.


Lemma int_zero_angle_fits : no_int64_wrap int_zero_angle.
Proof.
  unfold no_int64_wrap, fits_int64.
  cbn [angle radius rotation_center_y int_zero_angle]. lia.
Defined.

Lemma zero_angle_collapses_the_conductor_witness :
  no_int64_wrap int_zero_angle /\
  exists f,
    faces_bound (globals (up_to_points true int_zero_angle init).2) f /\
    face3_extremes f = face1_extremes f.
Proof.
  split; [exact int_zero_angle_fits|].
  destruct (zero_angle_collapses_the_conductor true int_zero_angle
              (Int 0) (Int 100) eq_refl eq_refl eq_refl int_zero_angle_fits)
    as (f & _ & Hf & _ & _ & H3).
  exists f. split; [exact Hf|exact H3].
Defined.

End ConductorExtra.

(** ** More on the example script: the names of the cases *)

Module ExampleExtra.
Import Py PyFacts Numpy NumpyFacts Opera OperaFacts Example ExampleFacts.
Import Measures Samples MoreSamples.

Lemma string_length_app (a b : string) :
  String.length (a +:+ b) = (String.length a + String.length b)%nat.
Proof.
  induction a as [|ch a IH]; [reflexivity|].
  rewrite string_app_cons. cbn [String.length]. rewrite IH. reflexivity.
Qed.

Lemma string_app_inj_r (s a b : string) : a +:+ s = b +:+ s -> a = b.
Proof.
  revert b. induction a as [|ch a IH]; intros [|ch' b] Heq.
  - reflexivity.
  - apply (f_equal String.length) in Heq.
    rewrite !string_length_app in Heq. cbn [String.length] in Heq. lia.
  - apply (f_equal String.length) in Heq.
    rewrite !string_length_app in Heq. cbn [String.length] in Heq. lia.
  - rewrite !string_app_cons in Heq. injection Heq as -> Heq.
    f_equal. apply IH, Heq.
Qed.

Lemma case_name_inj (pre post : string) (n m : Z) :
  pre +:+ pretty n +:+ post = pre +:+ pretty m +:+ post -> n = m.
Proof.
  intros Heq. apply (inj (String.append pre)) in Heq.
  apply string_app_inj_r in Heq. apply (inj pretty) in Heq. exact Heq.
Qed.

Lemma NoDup_case_names (pre post : string) (cases : list Z) :
  NoDup cases -> NoDup (map (fun n : Z => pre +:+ pretty n +:+ post) cases).
Proof.
  intros Hnd. apply NoDup_fmap_2; [|exact Hnd].
  intros n m. apply case_name_inj.
Qed.

Section Facts.
Context `{FloatFormat}.
Variable h : host.

Lemma written_files_app (t1 t2 : list event) :
  written_files (t1 ++ t2) = (written_files t1 ++ written_files t2)%list.
Proof.
  induction t1 as [|e t1 IH]; [reflexivity|].
  destruct e; cbn [written_files app]; rewrite IH; reflexivity.
Qed.

Lemma created_buffers_app (t1 t2 : list event) :
  created_buffers (t1 ++ t2) = (created_buffers t1 ++ created_buffers t2)%list.
Proof.
  induction t1 as [|e t1 IH]; [reflexivity|].
  destruct e; cbn [created_buffers app]; rewrite IH; reflexivity.
Qed.

Lemma reads_write_nothing (b : string) :
  written_files (reads h b) = [] /\ created_buffers (reads h b) = [].
Proof.
  unfold reads. cbn [written_files created_buffers].
  induction (columns (h b)) as [|c cs IH]; [split; reflexivity|exact IH].
Qed.

Lemma case_events_files i p n :
  written_files (case_events h i p n) = [p +:+ pretty n +:+ ".csv"] /\
  created_buffers (case_events h i p n) = [buffer_name_preffix i +:+ pretty n].
Proof.
  unfold case_events. cbv zeta.
  rewrite !written_files_app, !created_buffers_app.
  destruct (reads_write_nothing (buffer_name_preffix i +:+ pretty n)) as [-> ->].
  split; reflexivity.
Qed.

Lemma cases_files i p (cases : list Z) :
  written_files (concat (map (case_events h i p) cases))
  = map (fun n : Z => p +:+ pretty n +:+ ".csv") cases /\
  created_buffers (concat (map (case_events h i p) cases))
  = map (fun n : Z => buffer_name_preffix i +:+ pretty n +:+ "") cases.
Proof.
  induction cases as [|n cases [IHw IHc]]; [split; reflexivity|].
  cbn [map concat]. rewrite written_files_app, created_buffers_app, IHw, IHc.
  destruct (case_events_files i p n) as [-> ->].
  rewrite string_app_nil_r. split; reflexivity.
Qed.

(** X4.  With [final_case < initial_case] the loop has no round: the run
    ends well after the polyline and the graph are created, no case is
    loaded and no file is written, and this whether or not a file name
    prefix is set. *)
Theorem no_case_no_round (i : inputs) :
  (final_case i < initial_case i)%Z ->
  (script h i init).1 = Ok tt /\
  trace (script h i init).2 = opening_events i.
Proof.
  intros Hlt. destruct (opening_runs h i) as (g & _ & _ & ->).
  unfold range. rewrite seqZ_nil by lia. split; reflexivity.
Qed.

(** X5.  Every case has its own buffer and its own file: with a prefix set,
    the files written are [prefix + str(n) + ".csv"] for the cases [n] in
    order, the buffers created are [buffer_name_preffix + str(n)], and no
    name occurs twice, so no export overwrites another. *)
Theorem every_case_has_its_own_file (i : inputs) (p : string) :
  buffer_filename_prefix i = Some p ->
  let run := script h i init in
  let cases := range (initial_case i) (final_case i + 1) in
  written_files (trace run.2)
  = map (fun n : Z => p +:+ pretty n +:+ ".csv") cases /\
  NoDup (written_files (trace run.2)) /\
  created_buffers (trace run.2)
  = map (fun n : Z => buffer_name_preffix i +:+ pretty n) cases /\
  NoDup (created_buffers (trace run.2)).
Proof.
  intros Hsome run cases.
  destruct (opening_runs h i) as (g & Hin & _ & Hscript).
  destruct (loop_exports h cases g (opening_events i) i p Hin Hsome)
    as (g' & Hloop).
  subst run. rewrite Hscript. fold cases. rewrite Hloop. cbn [snd trace].
  rewrite written_files_app, created_buffers_app.
  destruct (cases_files i p cases) as [-> ->]. cbn [opening_events written_files created_buffers app].
  assert (Hnd : NoDup cases) by apply NoDup_seqZ.
  assert (Hnames : map (fun n : Z => buffer_name_preffix i +:+ pretty n +:+ "") cases
                   = map (fun n : Z => buffer_name_preffix i +:+ pretty n) cases).
  { apply map_ext. intros n. rewrite string_app_nil_r. reflexivity. }
  split; [reflexivity|]. split; [apply NoDup_case_names, Hnd|].
  split; [exact Hnames|]. apply NoDup_case_names, Hnd.
Qed.
End Facts.
Lemma no_case_no_round_witness :
  trace (script (H := blank_format) sample_host no_case init).2
  = opening_events no_case.
Proof.
  destruct (no_case_no_round (H := blank_format) sample_host no_case) as [_ Ht].
  - cbn. lia.
  - exact Ht.
Defined.

Lemma every_case_has_its_own_file_witness :
  NoDup (written_files
           (trace (script (H := blank_format) sample_host default_inputs init).2)).
Proof.
  destruct (every_case_has_its_own_file (H := blank_format) sample_host
              default_inputs "fields_at_" eq_refl) as (_ & Hnd & _).
  exact Hnd.
Defined.

End ExampleExtra.

(** ** More on the exports: the lines of the files *)

Module LinesFacts.
Import Py PyFacts Numpy NumpyFacts Opera OperaFacts Lines Samples MoreSamples.
Import Halbach HalbachFacts.

Lemma count_nl_app (a b : string) :
  count_nl (a +:+ b) = (count_nl a + count_nl b)%nat.
Proof.
  induction a as [|ch a IH]; [reflexivity|].
  rewrite string_app_cons. cbn [count_nl]. rewrite IH.
  destruct (Ascii.eqb ch "010"); reflexivity.
Qed.

Lemma one_line_app (a b : string) :
  one_line a -> one_line b -> one_line (a +:+ b).
Proof. unfold one_line. intros Ha Hb. rewrite count_nl_app, Ha, Hb. reflexivity. Qed.

Lemma comment_lines_app (a b : string) :
  comment_lines (a +:+ b) = comment_lines a +:+ comment_lines b.
Proof.
  induction a as [|ch a IH]; [reflexivity|].
  rewrite string_app_cons. cbn [comment_lines]. rewrite IH.
  destruct (Ascii.eqb ch "010"); rewrite ?string_app_cons; [|reflexivity].
  f_equal.
Qed.

Lemma comment_lines_one_line (a : string) :
  one_line a -> comment_lines a = a.
Proof.
  unfold one_line. induction a as [|ch a IH]; [reflexivity|].
  cbn [count_nl comment_lines]. destruct (Ascii.eqb ch "010"); [discriminate|].
  intros Ha. rewrite IH by exact Ha. reflexivity.
Qed.

Lemma count_nl_comment_lines (a : string) :
  count_nl (comment_lines a) = count_nl a.
Proof.
  induction a as [|ch a IH]; [reflexivity|].
  cbn [comment_lines count_nl].
  destruct (Ascii.eqb ch "010") eqn:Hch; cbn [count_nl]; rewrite Hch.
  - change ("# " +:+ comment_lines a)
      with (String "#" (String " " (comment_lines a))).
    cbn [count_nl]. cbn. rewrite IH. reflexivity.
  - exact IH.
Qed.

Lemma one_line_join (sep : string) (parts : list string) :
  one_line sep -> Forall one_line parts -> one_line (join sep parts).
Proof.
  intros Hsep Hparts. induction Hparts as [|p parts Hp Hparts IH]; [reflexivity|].
  destruct parts as [|q parts]; [exact Hp|].
  change (join sep (p :: q :: parts)) with (p +:+ sep +:+ join sep (q :: parts)).
  auto using one_line_app.
Qed.

Lemma one_line_spaces (n : nat) : one_line (spaces n).
Proof. induction n as [|n IH]; [reflexivity|exact IH]. Qed.

Lemma one_line_ljust (w : nat) (s : string) : one_line s -> one_line (ljust w s).
Proof. intros Hs. unfold ljust. apply one_line_app; [exact Hs|apply one_line_spaces]. Qed.

Lemma one_line_pretty_N_char (x : N) (s : string) :
  count_nl (String (pretty_N_char x) s) = count_nl s.
Proof. unfold pretty_N_char. repeat case_match; reflexivity. Qed.

Lemma count_nl_pretty_N_go (x : N) (s : string) :
  count_nl (pretty_N_go x s) = count_nl s.
Proof.
  revert s. induction (N.lt_wf_0 x) as [x _ IH]; intros s.
  assert (x = 0 \/ 0 < x)%N as [->|Hpos] by lia.
  - rewrite pretty_N_go_0. reflexivity.
  - rewrite pretty_N_go_step by exact Hpos.
    rewrite IH by (apply N.div_lt; lia).
    apply one_line_pretty_N_char.
Qed.

Lemma one_line_pretty_N (x : N) : one_line (pretty x).
Proof.
  unfold pretty, pretty_N, one_line. case_decide; [reflexivity|].
  apply count_nl_pretty_N_go.
Qed.

Lemma one_line_pretty_Z (z : Z) : one_line (pretty z).
Proof.
  destruct z as [|p|p]; [reflexivity|apply one_line_pretty_N|].
  change (pretty (Z.neg p)) with ("-" +:+ pretty (N.pos p)).
  apply one_line_app; [reflexivity|apply one_line_pretty_N].
Qed.

Section Facts.
Context `{FloatFormat}.
Hypothesis Hrender : renders_on_one_line H.

Lemma one_line_str (n : num) : one_line (str n).
Proof.
  destruct Hrender as (_ & Hrepr & _).
  destruct n as [z|x]; [apply one_line_pretty_Z|apply Hrepr].
Qed.

Lemma count_nl_row_text (row : list R) : count_nl (row_text "," nl row) = 1%nat.
Proof.
  destruct Hrender as (_ & _ & Hsci).
  unfold row_text. rewrite count_nl_app.
  replace (count_nl (join "," (map sci18 row))) with O; [reflexivity|].
  symmetry. apply one_line_join; [reflexivity|].
  apply Forall_map, Forall_forall. intros x _. apply Hsci.
Qed.

Lemma count_nl_rows_text (X : list (list R)) :
  count_nl (rows_text "," nl X) = List.length X.
Proof.
  induction X as [|row X IH]; [reflexivity|].
  cbn [rows_text List.length]. rewrite count_nl_app, count_nl_row_text, IH.
  reflexivity.
Qed.

Lemma count_nl_header_text (header : string) :
  header <> "" -> count_nl (header_text nl header) = S (count_nl header).
Proof.
  intros Hne. rewrite header_text_nonempty by exact Hne.
  rewrite !count_nl_app, count_nl_comment_lines. cbn. lia.
Qed.

Lemma T_column_arrays_length (b : buffer) :
  columns b <> [] -> List.length (T (column_arrays b)) = point_total b.
Proof.
  intros Hc. unfold column_arrays.
  destruct (columns b) as [|c cs]; [contradiction|].
  cbn [map]. rewrite T_length. apply column_data_length.
Qed.

Lemma count_nl_exported_text (b : buffer) (header : string) :
  columns b <> [] ->
  header <> "" ->
  count_nl (exported_text b header)
  = (count_nl header + 1 + point_total b)%nat.
Proof.
  intros Hc Hh. unfold exported_text, savetxt_text.
  rewrite count_nl_app, count_nl_header_text, count_nl_rows_text by exact Hh.
  rewrite T_column_arrays_length by exact Hc. lia.
Qed.

Lemma one_line_str_list (xs : list num) : one_line (str_list xs).
Proof.
  unfold str_list. apply one_line_app; [reflexivity|].
  apply one_line_app; [|reflexivity].
  apply one_line_join; [reflexivity|].
  apply Forall_map, Forall_forall. intros x _. apply one_line_str.
Qed.

Lemma comment_lines_field (lv : string * string) :
  one_line lv.1 -> one_line lv.2 ->
  comment_lines (field lv) = field lv +:+ "# " /\ count_nl (field lv) = 1%nat.
Proof.
  intros Hl Hv. unfold field.
  assert (Hline : one_line (ljust 25 lv.1 +:+ ": " +:+ lv.2)).
  { apply one_line_app; [apply one_line_ljust, Hl|].
    apply one_line_app; [reflexivity|exact Hv]. }
  assert (Hshape : ljust 25 lv.1 +:+ ": " +:+ lv.2 +:+ nl
                   = (ljust 25 lv.1 +:+ ": " +:+ lv.2) +:+ nl).
  { rewrite !string_app_assoc. reflexivity. }
  rewrite Hshape. split.
  - rewrite comment_lines_app, comment_lines_one_line by exact Hline.
    rewrite (string_app_assoc _ nl "# "). reflexivity.
  - rewrite count_nl_app, Hline. reflexivity.
Qed.

Lemma comment_lines_lines_text (fields : list (string * string)) (last : string) :
  Forall (fun lv => one_line lv.1 /\ one_line lv.2) fields ->
  one_line last ->
  "# " +:+ comment_lines (lines_text fields +:+ last)
  = commented_lines fields +:+ "# " +:+ last /\
  count_nl (lines_text fields +:+ last) = List.length fields.
Proof.
  intros Hfields Hlast.
  induction Hfields as [|lv fields [Hl Hv] Hfields [IHtext IHcount]].
  - cbn [lines_text commented_lines List.length].
    change ("" +:+ last) with last.
    rewrite comment_lines_one_line by exact Hlast. split; [reflexivity|exact Hlast].
  - cbn [lines_text commented_lines List.length].
    destruct (comment_lines_field lv Hl Hv) as [Hfield Hone].
    rewrite !string_app_assoc, comment_lines_app, Hfield. split.
    + rewrite !string_app_assoc.
      rewrite <- IHtext. reflexivity.
    + rewrite count_nl_app, Hone, IHcount. reflexivity.
Qed.

Lemma header_fields_one_line i d r g :
  Forall (fun lv => one_line lv.1 /\ one_line lv.2) (header_fields i d r g).
Proof.
  destruct Hrender as (Hfixed & Hrepr & _).
  unfold header_fields.
  repeat (apply Forall_cons; split;
          [split; [reflexivity|
                   first [apply one_line_str | apply Hrepr | apply Hfixed
                         | apply one_line_str_list]]|]).
  constructor.
Qed.

(** X7.  The header of the Halbach file, as [np.savetxt] writes it: where
    neither a rendered number nor a column name breaks the line, each of
    the 24 labelled lines and the line of column names stands behind the
    comment mark, and the file has 25 lines of header and then one line for
    each sample point. *)
Theorem halbach_header_is_commented (i : inputs) (d : dimensions) (r : readings)
    (g : gfr_statistics) (b : buffer) :
  Forall one_line (columns b) ->
  columns b <> [] ->
  header_text nl (header i d r g (columns b))
  = commented_lines (header_fields i d r g)
    +:+ "# " +:+ join "," (columns b) +:+ nl /\
  List.length (header_fields i d r g) = 24%nat /\
  count_nl (exported_text b (header i d r g (columns b)))
  = (25 + point_total b)%nat.
Proof.
  intros Hnames Hcols.
  assert (Hlast : one_line (join "," (columns b))).
  { apply one_line_join; [reflexivity|exact Hnames]. }
  destruct (comment_lines_lines_text (header_fields i d r g)
              (join "," (columns b)) (header_fields_one_line i d r g) Hlast)
    as [Htext Hcount].
  assert (Hne : header i d r g (columns b) <> "").
  { intros Hnil. apply (f_equal count_nl) in Hnil.
    rewrite header_lines, Hcount in Hnil. discriminate. }
  split; [|split; [reflexivity|]].
  - rewrite header_text_nonempty by exact Hne.
    rewrite header_lines, <- (string_app_assoc "# ").
    rewrite Htext, !string_app_assoc. reflexivity.
  - rewrite count_nl_exported_text by assumption.
    rewrite header_lines, Hcount. reflexivity.
Qed.

(** X6.  The file of the example script: where neither a rendered number
    nor a column name breaks the line, the file is the line of column names
    behind the comment mark and then one line for each sample point. *)
Theorem example_file_line_count (b : buffer) :
  Forall one_line (columns b) ->
  columns b <> [] ->
  join "," (columns b) <> "" ->
  header_text nl (join "," (columns b)) = "# " +:+ join "," (columns b) +:+ nl /\
  count_nl (exported_text b (join "," (columns b))) = (1 + point_total b)%nat.
Proof.
  intros Hnames Hcols Hne.
  assert (Hlast : one_line (join "," (columns b))).
  { apply one_line_join; [reflexivity|exact Hnames]. }
  split.
  - rewrite header_text_nonempty by exact Hne.
    rewrite comment_lines_one_line by exact Hlast. reflexivity.
  - rewrite count_nl_exported_text by assumption.
    rewrite Hlast. reflexivity.
Qed.
End Facts.
Lemma blank_format_on_one_line : renders_on_one_line blank_format.
Proof. repeat split. Qed.

Lemma halbach_header_is_commented_witness :
  count_nl (exported_text (H := blank_format) two_columns
              (header (H := blank_format) six_blocks six_blocks_dimensions
                 sample_readings (GfrStatistics 1 3 1000000) ["B"; "Bx"]))
  = 28%nat.
Proof.
  destruct (halbach_header_is_commented (H := blank_format)
              blank_format_on_one_line six_blocks six_blocks_dimensions
              sample_readings (GfrStatistics 1 3 1000000) two_columns)
    as (_ & _ & Hcount).
  - repeat constructor.
  - discriminate.
  - exact Hcount.
Defined.

Lemma example_file_line_count_witness :
  count_nl (exported_text (H := blank_format) two_columns "B,Bx") = 4%nat.
Proof.
  destruct (example_file_line_count (H := blank_format)
              blank_format_on_one_line two_columns) as (_ & Hcount).
  - repeat constructor.
  - discriminate.
  - discriminate.
  - exact Hcount.
Defined.

End LinesFacts.

(** ** More on the Halbach script: dimensions and statistics *)

Module HalbachExtra.
Import Py PyFacts Numpy NumpyFacts Opera OperaFacts Halbach HalbachFacts.
Import ExportFacts Samples MoreSamples.

Open Scope R_scope.

(** X8.  The clearances the header reports are the clearances of the ring:
    between the bore and a block lies [core_inner_thickness*block_diameter],
    between a block and the rim of the device
    [core_outer_thickness*block_diameter], and between two adjacent blocks
    [gap_blocks*block_diameter]. *)
Theorem clearances_are_the_header_values (i : inputs) (d : dimensions) :
  derive i = Ok d ->
  block_center_radius i d - block_diameter d / 2 - to_R (bore_diameter i) / 2
  = to_R (core_inner_thickness i) * block_diameter d /\
  device_diameter d / 2 - (block_center_radius i d + block_diameter d / 2)
  = to_R (core_outer_thickness i) * block_diameter d /\
  adjacent_centers_distance i d - block_diameter d
  = to_R (gap_blocks i) * block_diameter d.
Proof.
  intros Hd. destruct (derive_inv i d Hd) as (_ & _ & Hden & Hbd & Hdev).
  unfold adjacent_centers_distance, block_center_radius.
  repeat split.
  - field.
  - rewrite Hdev. field.
  - rewrite Hbd. field. exact Hden.
Qed.

(** X10.  No guard stands before the block diameter: for a positive bore
    and [s], it is positive when [s*(1 + 2*core_inner_thickness)] is below
    [1 + gap_blocks], and negative when it is above, as for two blocks with
    the thicknesses of the script. *)
Theorem block_diameter_sign (i : inputs) (d : dimensions) :
  derive i = Ok d ->
  0 < to_R (bore_diameter i) ->
  0 < s d ->
  (s d * (1 + 2 * to_R (core_inner_thickness i)) < 1 + to_R (gap_blocks i) ->
   0 < block_diameter d) /\
  (1 + to_R (gap_blocks i) < s d * (1 + 2 * to_R (core_inner_thickness i)) ->
   block_diameter d < 0).
Proof.
  intros Hd Hbore Hs. destruct (derive_inv i d Hd) as (_ & _ & Hden & Hbd & _).
  rewrite Hbd. split; intros Hpack.
  - apply Rdiv_lt_0_compat; nra.
  - apply Ropp_lt_cancel. rewrite Ropp_0, <- Rdiv_opp_r.
    apply Rdiv_lt_0_compat; nra.
Qed.

Lemma index_missing (names : list string) (x : string) :
  ~ In x names -> index names x = Raise ValueError.
Proof.
  induction names as [|y names IH]; intros Hin; [reflexivity|].
  cbn [index]. destruct (String.eqb y x) eqn:Hyx.
  - apply String.eqb_eq in Hyx. exfalso. apply Hin. left. exact Hyx.
  - rewrite IH; [reflexivity|]. intros Hx. apply Hin. right. exact Hx.
Qed.

Lemma index_found (names : list string) (x : string) :
  In x names -> exists k, index names x = Ok k.
Proof.
  induction names as [|y names IH]; intros Hin; [destruct Hin|].
  cbn [index]. destruct (String.eqb y x) eqn:Hyx; [eexists; reflexivity|].
  destruct Hin as [->|Hin]; [rewrite String.eqb_refl in Hyx; discriminate|].
  destruct (IH Hin) as [k ->]. eexists. reflexivity.
Qed.

Lemma column_data_no_points (b : buffer) (c : string) :
  point_total b = O -> column_data b c = [].
Proof. intros Hz. unfold column_data. rewrite Hz. reflexivity. Qed.

(** X11.  Whenever lines 209-213 return, [bmin] is at most [bmax], the
    homogeneity is not negative for a positive central field, and it is
    zero exactly when [bmin] and [bmax] agree. *)
Theorem statistics_are_ordered (names : list string) (rows : list (list R))
    (b0 : R) (g : gfr_statistics) :
  statistics names rows b0 = Ok g ->
  bmin g <= bmax g /\
  (0 < b0 -> 0 <= hom g) /\
  (hom g = 0 <-> bmin g = bmax g).
Proof.
  unfold statistics. intros Hg.
  destruct (index names "B") as [k|] eqn:Hk; [|discriminate]. cbn [rbind] in Hg.
  destruct (getitem rows k) as [column|] eqn:Hrow; [|discriminate].
  cbn [rbind] in Hg.
  destruct (py_min column) as [lo|] eqn:Hlo; [|discriminate].
  destruct (py_max column) as [hi|] eqn:Hhi; [|discriminate].
  cbn [rbind] in Hg.
  destruct (homogeneity hi lo b0) as [ho|] eqn:Hho; [|discriminate].
  cbn [rbind] in Hg. injection Hg as <-. cbn [bmin bmax hom].
  assert (Hne : column <> []) by (intros ->; discriminate).
  destruct (py_min_spec column Hne) as (lo' & Hlo' & _ & Hle).
  destruct (py_max_spec column Hne) as (hi' & Hhi' & Hin & _).
  rewrite Hlo in Hlo'. rewrite Hhi in Hhi'.
  injection Hlo' as <-. injection Hhi' as <-.
  assert (Horder : lo <= hi) by (apply Hle, Hin).
  unfold homogeneity in Hho. apply py_div_inv in Hho as [Hb0 ->].
  assert (Hb : b0 <> 0) by lra.
  split; [exact Horder|]. split.
  - intros Hpos. apply Rmult_le_pos; [lra|].
    left. apply Rinv_0_lt_compat. lra.
  - split.
    + intros Hzero. unfold Rdiv in Hzero.
      apply Rmult_integral in Hzero as [Hzero|Hzero]; [lra|].
      exfalso. revert Hzero. apply Rinv_neq_0_compat. lra.
    + intros ->. unfold Rdiv. ring.
Qed.

Section Script.
Context `{FloatFormat}.

(** X12.  POST-PROCESSING needs the samples of B: when the buffer has no
    column ["B"], or no sample point, the run raises [ValueError] right
    after the buffer is read back; the field at the origin is not asked for
    and no file is written. *)
Theorem post_processing_needs_the_B_samples (h : host) (i : inputs)
    (d : dimensions) (r : readings) g0 t :
  let b := h "buffer_gfr_fields" in
  ~ In "B" (columns b) \/ point_total b = O ->
  post_processing h i d r (State g0 t)
  = (Raise ValueError,
     State g0 (t ++ probe_events i ++ reads h "buffer_gfr_fields")%list).
Proof.
  intros b Hbad. unfold post_processing. repeat step.
  erewrite bind_run by apply read_columns_of.
  fold b. change (map (column_data b) (columns b)) with (column_arrays b).
  destruct (in_dec String.string_dec "B" (columns b)) as [Hin|Hout].
  - destruct Hbad as [Hout|Hzero]; [contradiction|].
    destruct (index_found _ _ Hin) as [k Hk].
    assert (Hcol : column_arrays b !! k = Some (column_data b "B")).
    { unfold column_arrays.
      rewrite list_lookup_fmap, (index_lookup _ _ _ Hk). reflexivity. }
    rewrite Hk. step. rewrite (getitem_ok _ _ _ Hcol). step.
    rewrite (column_data_no_points b "B" Hzero).
    cbn [py_min]. rewrite bind_lift_raise.
    unfold probe_events, reads. rewrite <- !app_assoc. reflexivity.
  - rewrite (index_missing _ _ Hout), bind_lift_raise.
    unfold probe_events, reads. rewrite <- !app_assoc. reflexivity.
Qed.

(** X13.  With the column ["B"] sampled and a field of zero at the origin,
    POST-PROCESSING raises [ZeroDivisionError] once the host has answered
    for the origin, and no file is written. *)
Theorem post_processing_stops_on_zero_field (h : host) (i : inputs)
    (d : dimensions) (r : readings) g0 t :
  let b := h "buffer_gfr_fields" in
  In "B" (columns b) ->
  (0 < point_total b)%nat ->
  b0 r = 0 ->
  post_processing h i d r (State g0 t)
  = (Raise ZeroDivisionError,
     State g0 (t ++ probe_events i ++ reads h "buffer_gfr_fields"
                 ++ [CalculateFieldAtPoint (0, 0) "B"])%list).
Proof.
  intros b Hin Hpoints Hzero.
  destruct (index_found _ _ Hin) as [k Hk].
  assert (Hcol : column_arrays b !! k = Some (column_data b "B")).
  { unfold column_arrays.
    rewrite list_lookup_fmap, (index_lookup _ _ _ Hk). reflexivity. }
  assert (Hne : column_data b "B" <> []).
  { intros Hnil. pose proof (column_data_length b "B") as Hlen.
    rewrite Hnil in Hlen. cbn in Hlen. lia. }
  destruct (py_min_spec _ Hne) as (lo & Hlo & _).
  destruct (py_max_spec _ Hne) as (hi & Hhi & _).
  unfold post_processing. repeat step.
  erewrite bind_run by apply read_columns_of.
  fold b. change (map (column_data b) (columns b)) with (column_arrays b).
  repeat first
    [ step
    | rewrite Hk
    | rewrite (getitem_ok _ _ _ Hcol)
    | rewrite Hlo
    | rewrite Hhi ].
  rewrite Hzero, homogeneity_zero, bind_lift_raise.
  unfold probe_events, reads. rewrite <- !app_assoc. reflexivity.
Qed.
End Script.
Close Scope R_scope.
Open Scope R_scope.

Lemma derive_two_blocks : derive two_blocks = Ok two_blocks_dimensions.
Proof.
  unfold derive, two_blocks.
  cbn [n_blocks bore_diameter gap_blocks core_inner_thickness
       core_outer_thickness to_R].
  rewrite py_div_ok by lra. cbn [rbind].
  rewrite sin_PI2.
  rewrite np_div_ok by lra. cbn [rbind].
  unfold two_blocks_dimensions. do 2 f_equal; field.
Qed.

Lemma clearances_are_the_header_values_witness :
  adjacent_centers_distance six_blocks six_blocks_dimensions - 270
  = 10 / 100 * 270.
Proof.
  destruct (clearances_are_the_header_values six_blocks six_blocks_dimensions
              derive_six_blocks) as (_ & _ & Hgap).
  exact Hgap.
Defined.

Lemma block_diameter_sign_witness :
  block_diameter two_blocks_dimensions < 0.
Proof.
  destruct (block_diameter_sign two_blocks two_blocks_dimensions
              derive_two_blocks) as (_ & Hneg).
  - cbn. lra.
  - cbn. lra.
  - apply Hneg. cbn. lra.
Defined.

Lemma statistics_are_ordered_witness :
  exists g, statistics ["B"] [[1; 3]] 1 = Ok g /\ bmin g <= bmax g.
Proof.
  destruct (statistics_spec ["B"] [[1; 3]] 0 [1; 3] 1)
    as (g & Hg & _); [reflexivity|reflexivity|discriminate|lra|].
  exists g. split; [exact Hg|].
  destruct (statistics_are_ordered ["B"] [[1; 3]] 1 g Hg) as (Horder & _).
  exact Horder.
Defined.

Lemma post_processing_needs_the_B_samples_witness :
  (post_processing (H := blank_format) (fun _ => no_B_column) six_blocks
     six_blocks_dimensions sample_readings init).1
  = Raise ValueError.
Proof.
  unfold init.
  rewrite (post_processing_needs_the_B_samples (H := blank_format)
             (fun _ => no_B_column) six_blocks six_blocks_dimensions
             sample_readings ∅ []).
  - reflexivity.
  - left. intros [Hin|[Hin|[]]]; discriminate.
Defined.

Lemma post_processing_stops_on_zero_field_witness :
  (post_processing (H := blank_format) sample_host six_blocks
     six_blocks_dimensions zero_field init).1
  = Raise ZeroDivisionError.
Proof.
  unfold init.
  rewrite (post_processing_stops_on_zero_field (H := blank_format)
             sample_host six_blocks six_blocks_dimensions zero_field ∅ []).
  - reflexivity.
  - left. reflexivity.
  - cbn. lia.
  - reflexivity.
Defined.

Close Scope R_scope.

End HalbachExtra.

(** ** More on the Halbach script: the blocks and the background *)

Module BuildFacts.
Import Py PyFacts Halbach HalbachFacts HalbachBuild Samples MoreSamples.

Open Scope R_scope.

Lemma py_mod_bounds (x : R) : 0 <= py_mod x 360 < 360.
Proof.
  unfold py_mod. destruct (base_Int_part (x / 360)) as [Hle Hgt].
  assert (Hx : x = 360 * (x / 360)) by (field; lra).
  split; lra.
Qed.

Lemma py_mod_small (x : R) : 0 <= x < 360 -> py_mod x 360 = x.
Proof.
  intros [Hlo Hhi]. unfold py_mod.
  replace (Int_part (x / 360)) with 0%Z; [ring|].
  apply Int_part_spec. split; lra.
Qed.

Lemma py_mod_turn (x : R) : py_mod (x + 360) 360 = py_mod x 360.
Proof.
  unfold py_mod.
  replace (Int_part ((x + 360) / 360)) with (Int_part (x / 360) + 1)%Z.
  - rewrite plus_IZR. ring.
  - apply Int_part_spec. rewrite plus_IZR.
    destruct (base_Int_part (x / 360)) as [Hle Hgt].
    replace ((x + 360) / 360) with (x / 360 + 1) by (field; lra).
    split; lra.
Qed.

Lemma easy_axis_angle_ok (n k : Z) :
  n <> 0%Z ->
  easy_axis_angle n k = Ok (90 + py_mod (IZR (k * 720) / IZR n) 360).
Proof.
  intros Hn. unfold easy_axis_angle. rewrite py_div_ok; [reflexivity|].
  intros Hz. apply eq_IZR_R0 in Hz. contradiction.
Qed.

(** X14.  The easy axes turn twice round the ring: for [n_blocks] other than
    zero the angle of line 138 is computed and lies from 90 up to, not
    including, 450 degrees; for an even number of blocks, a block and the
    block opposite to it have the same angle; and over the first half of
    the ring the angle is [90 + i*720/n_blocks] with no wrap. *)
Theorem easy_axis_angles_turn_twice (n k : Z) :
  n <> 0%Z ->
  exists a,
    easy_axis_angle n k = Ok a /\
    90 <= a < 450 /\
    (forall m : Z, n = (2 * m)%Z -> easy_axis_angle n (k + m) = Ok a) /\
    ((0 <= k)%Z -> (2 * k < n)%Z -> a = 90 + IZR k * 720 / IZR n).
Proof.
  intros Hn. eexists. split; [apply easy_axis_angle_ok, Hn|].
  assert (Hnr : IZR n <> 0) by (intros Hz; apply eq_IZR_R0 in Hz; contradiction).
  split; [|split].
  - pose proof (py_mod_bounds (IZR (k * 720) / IZR n)). lra.
  - intros m Hm. rewrite easy_axis_angle_ok by exact Hn.
    replace (IZR ((k + m) * 720) / IZR n)
      with (IZR (k * 720) / IZR n + 360).
    + rewrite py_mod_turn. reflexivity.
    + subst n. rewrite !mult_IZR, plus_IZR in *. field.
      intros Hz. apply Hnr. rewrite Hz. ring.
  - intros Hk Hhalf. f_equal. rewrite py_mod_small.
    + rewrite mult_IZR. reflexivity.
    + assert (Hnpos : 0 < IZR n) by (apply IZR_lt; lia).
      assert (Hk0 : 0 <= IZR k) by (apply IZR_le, Hk).
      apply IZR_lt in Hhalf. rewrite mult_IZR in Hhalf.
      rewrite mult_IZR. split.
      * apply Rmult_le_pos; [|left; apply Rinv_0_lt_compat, Hnpos].
        apply Rmult_le_pos; [exact Hk0|lra].
      * apply Rmult_lt_reg_r with (IZR n); [exact Hnpos|].
        unfold Rdiv. rewrite Rmult_assoc, Rinv_l, Rmult_1_r by exact Hnr.
        lra.
Qed.
Close Scope R_scope.

Ltac step := step_with fail.

Lemma for_each_emits {A} (xs : list A) (f : A -> list call) (body : A -> M call unit)
    g0 t :
  (forall x g t, body x (State g t) = (Ok tt, State g (t ++ f x)%list)) ->
  for_each xs body (State g0 t) = (Ok tt, State g0 (t ++ concat (map f xs))%list).
Proof.
  intros Hbody. revert t. induction xs as [|x xs IH]; intros t.
  - rewrite for_each_nil. cbn [map concat]. rewrite app_nil_r. reflexivity.
  - rewrite for_each_cons. erewrite bind_run by apply Hbody.
    rewrite IH. cbn [map concat]. rewrite <- app_assoc. reflexivity.
Qed.

Lemma for_each_emits_one {A} (xs : list A) (f : A -> call) g0 t :
  for_each xs (fun x => emit (f x)) (State g0 t)
  = (Ok tt, State g0 (t ++ map f xs)%list).
Proof.
  revert t. induction xs as [|x xs IH]; intros t.
  - rewrite for_each_nil. cbn [map]. rewrite app_nil_r. reflexivity.
  - rewrite for_each_cons, bind_emit. cbn [globals trace].
    rewrite IH. cbn [map]. rewrite <- app_assoc. reflexivity.
Qed.

Lemma bind_create_properties {B} (k : Z) (f : string -> M call B) s :
  (create_properties k ≫= f) s
  = f ("easy-axis_" +:+ pretty k)
      (State (globals s)
         (trace s ++ [CreateProperties ("easy-axis_" +:+ pretty k)])).
Proof. reflexivity. Qed.

Lemma collect_properties (ks : list Z) g0 t :
  collect ks create_properties (State g0 t)
  = (Ok (map (fun k : Z => "easy-axis_" +:+ pretty k) ks),
     State g0 (t ++ map (fun k : Z => CreateProperties ("easy-axis_" +:+ pretty k)) ks)%list).
Proof.
  revert t. induction ks as [|k ks IH]; intros t.
  - cbn [collect map]. rewrite app_nil_r. reflexivity.
  - cbn [collect map]. rewrite bind_create_properties. cbn [globals trace].
    erewrite bind_run by apply IH.
    unfold mret, M_ret, ret. rewrite <- app_assoc. reflexivity.
Qed.

Lemma configure_block_runs (g : geometry) (i : inputs) (n : Z)
    (x : nat * (string * string)) g0 t :
  n <> 0%Z ->
  configure_block g i n x (State g0 t)
  = (Ok tt, State g0 (t ++ block_events g i n x)%list).
Proof.
  intros Hn. destruct x as [k [block property]].
  unfold configure_block. repeat step.
  rewrite easy_axis_angle_ok by exact Hn. repeat step.
  rewrite (for_each_emits _
             (fun region => [SetMaterial region "NdFeB";
                             SetProperties region property;
                             SetMeshSize region (mesh_blocks i)])).
  - unfold block_events. cbn [fst snd]. rewrite <- !app_assoc. reflexivity.
  - intros region g1 t1. repeat step. unfold emit. cbn [globals trace].
    rewrite <- !app_assoc. reflexivity.
Qed.

(** X15.  Lines 129-142 for an [int] number of blocks other than zero: the
    upper block is created and copied [n_blocks - 1] times by steps of
    [360/n_blocks] degrees, the properties [easy-axis_0 ..] are created, and
    block [i] is named [block_i] and given the properties [easy-axis_i] at
    its angle, each of its regions the material, these properties and the
    mesh size of the blocks.  The blocks set up are as many as the shorter
    of the two lists: the bodies of the host and the properties. *)
Theorem blocks_are_configured_in_order (g : geometry) (i : inputs)
    (d : dimensions) (n : Z) g0 t :
  n_blocks i = Int n ->
  n <> 0%Z ->
  let pairs := enumerate (zip ("upper_block" :: copied g) (property_names n)) in
  blocks_section g i d (State g0 t)
  = (Ok tt,
     State g0
       (t ++ [CreateCircle "upper_block" (0, block_center_radius i d)%R
                (1 / 2 * block_diameter d)%R;
              CopyBodies "upper_block" (Int (n - 1)) (360 / IZR n)%R]
          ++ map CreateProperties (property_names n)
          ++ concat (map (block_events g i n) pairs))%list) /\
  List.length pairs
  = Nat.min (S (List.length (copied g))) (Z.to_nat n).
Proof.
  intros Hint Hn pairs. split.
  - unfold blocks_section. rewrite Hint. cbn [to_R minus_one as_int].
    repeat step.
    rewrite py_div_ok
      by (intros Hz; apply eq_IZR_R0 in Hz; contradiction).
    repeat step.
    erewrite bind_run by apply collect_properties.
    fold (property_names n). fold pairs.
    rewrite (for_each_emits _ (block_events g i n))
      by (intros x g1 t1; apply configure_block_runs, Hn).
    unfold property_names. rewrite map_map, <- !app_assoc. reflexivity.
  - subst pairs. unfold enumerate, property_names, Example.range.
    rewrite length_zip_with, length_seq, length_zip_with, length_map, length_seqZ.
    cbn [List.length]. lia.
Qed.

Lemma backgrounds_loop_runs (g : geometry) (d : dimensions)
    (xs : list (num * R)) (bgs : list string) g0 t :
  let rounds := zip (seq (List.length bgs) (List.length xs)) xs in
  backgrounds_loop g d rounds bgs (State g0 t)
  = (Ok (bgs ++ map (fun k : nat => "bg" +:+ pretty k)
                  (seq (List.length bgs) (List.length xs)))%list,
     State g0 (t ++ concat (map (background_events g d) rounds))%list).
Proof.
  cbv zeta. revert bgs t. induction xs as [|[bg_factor bg_mesh] xs IH]; intros bgs t.
  - cbn [List.length seq zip_with map concat backgrounds_loop].
    rewrite !app_nil_r. reflexivity.
  - cbn [List.length seq zip_with map concat backgrounds_loop].
    repeat step.
    assert (Hget : getitem (bgs ++ ["bg" +:+ pretty (List.length bgs)])
                     (List.length bgs)
                   = Ok ("bg" +:+ pretty (List.length bgs))).
    { unfold getitem. rewrite lookup_app_r by lia.
      rewrite Nat.sub_diag. reflexivity. }
    rewrite Hget. step.
    erewrite bind_run by apply for_each_emits_one.
    specialize (IH (bgs ++ ["bg" +:+ pretty (List.length bgs)])%list).
    rewrite length_app in IH. cbn [List.length] in IH.
    rewrite Nat.add_1_r in IH. rewrite IH.
    unfold background_events at 2. cbn [fst snd].
    rewrite <- !app_assoc. reflexivity.
Qed.

Lemma last_background_names (count : nat) :
  last (background_names (S count)) = Some ("bg" +:+ pretty count).
Proof.
  unfold background_names. rewrite seq_S, map_app. cbn [map].
  rewrite last_snoc. reflexivity.
Qed.

Lemma rounds_length (i : inputs) :
  List.length (zip (bgs_factor i) (bgs_mesh i))
  = Nat.min (List.length (bgs_factor i)) 6.
Proof. rewrite length_zip_with. reflexivity. Qed.

(** X16.  Lines 148-163 with at least one background factor: a circle
    [bg0, bg1, ..] of radius [0.5*device_diameter*bg_factor] is created for
    each pair of a factor and a mesh size, so for at most six factors, the
    further ones being dropped; each is sent to the back; and the tangential
    boundary condition goes on the edges and vertices of the circle created
    last. *)
Theorem backgrounds_follow_the_shorter_list (g : geometry) (i : inputs)
    (d : dimensions) (count : nat) g0 t :
  Nat.min (List.length (bgs_factor i)) 6 = S count ->
  let rounds := enumerate (zip (bgs_factor i) (bgs_mesh i)) in
  let outer := "bg" +:+ pretty count in
  backgrounds_section g i d (State g0 t)
  = (Ok tt,
     State g0
       (t ++ concat (map (background_events g d) rounds)
          ++ map SendToBack (background_names (S count))
          ++ [CreateBoundaryCondition "tangent_magnetic";
              SetTangentialFieldMagnetic "tangent_magnetic"]
          ++ map (fun edge => SetEdgeCondition edge "tangent_magnetic")
               (edges g outer)
          ++ map (fun vertex => SetVertexCondition vertex "tangent_magnetic")
               (vertices g outer))%list) /\
  List.length rounds = S count.
Proof.
  intros Hcount rounds outer.
  assert (Hlen : List.length (zip (bgs_factor i) (bgs_mesh i)) = S count).
  { rewrite rounds_length. exact Hcount. }
  split.
  - unfold backgrounds_section.
    pose proof (backgrounds_loop_runs g d (zip (bgs_factor i) (bgs_mesh i)) []
                  g0 t) as Hloop.
    cbv zeta in Hloop. cbn [List.length app] in Hloop.
    fold (enumerate (zip (bgs_factor i) (bgs_mesh i))) in Hloop. fold rounds in Hloop.
    erewrite bind_run by exact Hloop.
    rewrite Hlen. fold (background_names (S count)).
    erewrite bind_run by apply for_each_emits_one.
    repeat step.
    unfold last_item. rewrite last_background_names. fold outer. step.
    erewrite bind_run by apply for_each_emits_one.
    step. rewrite for_each_emits_one.
    rewrite <- !app_assoc. reflexivity.
  - subst rounds. unfold enumerate.
    rewrite length_zip_with, length_seq, Hlen. lia.
Qed.

(** X17.  With no background factor, lines 148-163 raise [IndexError] at
    [bgs[-1]], the boundary condition already created and set. *)
Theorem no_background_no_boundary (g : geometry) (i : inputs) (d : dimensions)
    g0 t :
  bgs_factor i = [] ->
  backgrounds_section g i d (State g0 t)
  = (Raise IndexError,
     State g0 (t ++ [CreateBoundaryCondition "tangent_magnetic";
                     SetTangentialFieldMagnetic "tangent_magnetic"])%list).
Proof.
  intros Hnil. unfold backgrounds_section. rewrite Hnil.
  cbn [zip_with enumerate List.length seq backgrounds_loop].
  repeat step. cbn [last_item last]. rewrite bind_lift_raise.
  rewrite <- app_assoc. reflexivity.
Qed.
Lemma easy_axis_angles_turn_twice_witness :
  exists a : R,
    easy_axis_angle 12 3 = Ok a /\ easy_axis_angle 12 (3 + 6) = Ok a /\
    a = (90 + 3 * 720 / 12)%R.
Proof.
  destruct (easy_axis_angles_turn_twice 12 3) as (a & Ha & _ & Hopp & Hhalf);
    [discriminate|].
  exists a. split; [exact Ha|]. split.
  - apply (Hopp 6%Z). reflexivity.
  - apply Hhalf; lia.
Defined.

Lemma blocks_are_configured_in_order_witness :
  List.length
    (enumerate (zip ("upper_block" :: copied six_copies) (property_names 6)))
  = 6%nat.
Proof.
  destruct (blocks_are_configured_in_order six_copies six_blocks
              six_blocks_dimensions 6 ∅ []) as (_ & Hcount).
  - reflexivity.
  - discriminate.
  - exact Hcount.
Defined.

Lemma backgrounds_follow_the_shorter_list_witness :
  (backgrounds_section six_copies default_inputs six_blocks_dimensions init).1
  = Ok tt.
Proof.
  destruct (backgrounds_follow_the_shorter_list six_copies default_inputs
              six_blocks_dimensions 5 ∅ []) as (Hrun & _).
  - reflexivity.
  - unfold init. rewrite Hrun. reflexivity.
Defined.

Lemma no_background_no_boundary_witness :
  (backgrounds_section six_copies two_blocks two_blocks_dimensions init).1
  = Raise IndexError.
Proof.
  unfold init.
  rewrite (no_background_no_boundary six_copies two_blocks
             two_blocks_dimensions ∅ []); reflexivity.
Defined.

End BuildFacts.
